(** * Rotating-shift calendar (viewer.py): the rotation-resolution core

    A shallow embedding of the functions of [viewer.py] that decide which
    duty a worker has on a date: [flatten_shift_data], [get_daily_kinmu],
    the anchor computation of the script body and the colour chosen by
    [create_calendar_html].

    Conventions of the embedding.
    - Python [int] is [Z]; [%] and [//] are [Z.modulo] and [Z.div] (both
      take the sign of the divisor, as Python's do) and raise on zero.
    - A [datetime.date] is its proleptic Gregorian ordinal, so that
      [(a - b).days] is the difference of the ordinals.
    - A Python [str] is the list of its UTF-8 bytes ([String.string]);
      equality and the substring test on well-formed UTF-8 agree with the
      ones on code points.
    - Code that can raise returns in the error monad [res]. *)

From Stdlib Require Import ZArith List String Ascii Bool Lia DecimalString.
From Stdlib Require Import Sorting.Sorted Sorting.Permutation.
Import ListNotations.

Local Open Scope string_scope.
Local Open Scope list_scope.
Local Open Scope Z_scope.

(** ** The fragment of the Python runtime the program uses *)

Module Py.

Inductive exn : Type :=
| IndexError
| ValueError
| KeyError
| ZeroDivisionError
| OverflowError
| StopException.

Inductive res (A : Type) : Type :=
| Ok (a : A)
| Raise (e : exn).

Arguments Ok {A} a.
Arguments Raise {A} e.

Definition bind {A B : Type} (m : res A) (k : A -> res B) : res B :=
  match m with
  | Ok a => k a
  | Raise e => Raise e
  end.

(** [a % b] *)
Definition mod_ (a b : Z) : res Z :=
  if b =? 0 then Raise ZeroDivisionError else Ok (a mod b).

(** [a // b] *)
Definition floordiv (a b : Z) : res Z :=
  if b =? 0 then Raise ZeroDivisionError else Ok (a / b).

(** [len(l)] *)
Definition len {A : Type} (l : list A) : Z := Z.of_nat (List.length l).

(** [l[i]]: a negative index counts from the end, anything outside the
    list raises [IndexError]. *)
Definition getitem {A : Type} (l : list A) (i : Z) : res A :=
  let j := if i <? 0 then i + len l else i in
  if (0 <=? j) && (j <? len l) then
    match nth_error l (Z.to_nat j) with
    | Some a => Ok a
    | None => Raise IndexError
    end
  else Raise IndexError.

(** [l.index(x)]: the first position holding a value equal to [x],
    [ValueError] when there is none. *)
Fixpoint index {A : Type} (eqb : A -> A -> bool) (l : list A) (x : A) : res Z :=
  match l with
  | [] => Raise ValueError
  | y :: l' =>
      if eqb y x then Ok 0
      else bind (index eqb l' x) (fun i => Ok (i + 1))
  end.

(** [sorted(l)] on integers: ascending, stable. *)
Fixpoint insert_sorted (x : Z) (l : list Z) : list Z :=
  match l with
  | [] => [x]
  | y :: l' => if x <? y then x :: l else y :: insert_sorted x l'
  end.

Fixpoint sorted (l : list Z) : list Z :=
  match l with
  | [] => []
  | x :: l' => insert_sorted x (sorted l')
  end.

(** [needle in s] on strings. *)
Fixpoint contains (needle s : string) : bool :=
  if prefix needle s then true
  else match s with
       | EmptyString => false
       | String _ s' => contains needle s'
       end.

(** [for x in xs: body], the loop state threaded through the iterations. *)
Fixpoint for_each {A S : Type} (xs : list A) (body : A -> S -> res S) (s : S)
  : res S :=
  match xs with
  | [] => Ok s
  | x :: xs' => bind (body x s) (for_each xs' body)
  end.

(** [datetime.date], by ordinal ([date.min] is 1, [date.max] 3652059). *)
Record date : Type := mkdate { toordinal : Z }.

Definition MINORDINAL : Z := 1.
Definition MAXORDINAL : Z := 3652059.

(** [(a - b).days] *)
Definition sub_days (a b : date) : Z := toordinal a - toordinal b.

(** [d + timedelta(days=n)] *)
Definition add_days (d : date) (n : Z) : res date :=
  let o := toordinal d + n in
  if (MINORDINAL <=? o) && (o <=? MAXORDINAL) then Ok (mkdate o)
  else Raise OverflowError.

(** A value of one of the Python types the query returns: a [str], an
    [int], or an object taken out of the flat list. *)
Inductive value (A : Type) : Type :=
| VStr (s : string)
| VInt (n : Z)
| VObj (a : A).

Arguments VStr {A} s.
Arguments VInt {A} n.
Arguments VObj {A} a.

End Py.

Import Py.

Notation "x <- m ;; k" := (bind m (fun x => k))
  (at level 61, m at next level, right associativity).

(** ** The shift table *)

Definition group_list : list string :=
  ["イ"; "ロ"; "ハ"; "ニ"; "ホ"; "ヘ"; "ト"].

Section Table.

(** What a cell of the CSV file holds. *)
Variable cell : Type.

(** A line of the table: the seven group columns that
    [load_and_prepare_data] names イ, ロ, ハ, ニ, ホ, ヘ, ト. *)
Record row : Type := mkrow {
  col_i : cell; col_ro : cell; col_ha : cell; col_ni : cell;
  col_ho : cell; col_he : cell; col_to : cell
}.

(** The data frame indexed by the column 週: the lines in file order, each
    with its week number as label. Labels may repeat. *)
Definition dataframe : Type := list (Z * row).

(** [shift_df.index] *)
Definition df_index (shift_df : dataframe) : list Z := map fst shift_df.

(** The column of a line selected by its label; [KeyError] for a label
    that names no column. *)
Definition column (group : string) (r : row) : res cell :=
  if (group =? "イ")%string then Ok (col_i r)
  else if (group =? "ロ")%string then Ok (col_ro r)
  else if (group =? "ハ")%string then Ok (col_ha r)
  else if (group =? "ニ")%string then Ok (col_ni r)
  else if (group =? "ホ")%string then Ok (col_ho r)
  else if (group =? "ヘ")%string then Ok (col_he r)
  else if (group =? "ト")%string then Ok (col_to r)
  else Raise KeyError.

(** What [shift_df.loc[week_num, group]] evaluates to: the cell when one
    line carries the label, the sub-column of all of them when several
    do. *)
Inductive loc_value : Type :=
| Scalar (c : cell)
| Series (cs : list cell).

Fixpoint columns (group : string) (rs : list row) : res (list cell) :=
  match rs with
  | [] => Ok []
  | r :: rs' =>
      c <- column group r ;;
      cs <- columns group rs' ;;
      Ok (c :: cs)
  end.

Definition rows_labelled (shift_df : dataframe) (week_num : Z) : list row :=
  map snd (filter (fun wr => fst wr =? week_num) shift_df).

(** [shift_df.loc[week_num, group]] *)
Definition loc (shift_df : dataframe) (week_num : Z) (group : string)
  : res loc_value :=
  match rows_labelled shift_df week_num with
  | [] => Raise KeyError
  | [r] => c <- column group r ;; Ok (Scalar c)
  | rs => cs <- columns group rs ;; Ok (Series cs)
  end.

(** ** [flatten_shift_data] *)

Definition flatten_shift_data (shift_df : option dataframe)
  : res (list loc_value) :=
  match shift_df with
  | None => Ok []
  | Some df =>
      for_each (sorted (df_index df))
        (fun week_num flat_list =>
           for_each group_list
             (fun group flat_list =>
                v <- loc df week_num group ;;
                Ok (flat_list ++ [v]))
             flat_list)
        []
  end.

End Table.

Arguments mkrow {cell}.
Arguments Scalar {cell} c.
Arguments Series {cell} cs.
Arguments df_index {cell} shift_df.
Arguments column {cell} group r.
Arguments columns {cell} group rs.
Arguments rows_labelled {cell} shift_df week_num.
Arguments loc {cell} shift_df week_num group.
Arguments flatten_shift_data {cell} shift_df.

(** ** [get_daily_kinmu] *)

Definition get_daily_kinmu {A : Type} (target_date ref_date : date)
  (ref_shift_index : Z) (flat_shift_list : list A)
  : res (value A * value A * string) :=
  match flat_shift_list with
  | [] => Ok (VStr "データなし", VStr "-", "-")
  | _ :: _ =>
      let day_difference := sub_days target_date ref_date in
      let total_shifts := len flat_shift_list in
      target_index <- mod_ (ref_shift_index + day_difference) total_shifts ;;
      q <- floordiv target_index (len group_list) ;;
      let shift_table_week := q + 1 in
      current_group_index <- mod_ target_index (len group_list) ;;
      current_group <- getitem group_list current_group_index ;;
      kinmu <- getitem flat_shift_list target_index ;;
      Ok (VObj kinmu, VInt shift_table_week, current_group)
  end.

(** ** The script body: anchor and per-date query *)

(** What the closure [get_kinmu_for_calendar] captures. *)
Record context (A : Type) : Type := mkcontext {
  ref_date : date;
  ref_shift_index : Z;
  flat_shift_list : list A
}.

Arguments mkcontext {A}.
Arguments ref_date {A} c.
Arguments ref_shift_index {A} c.
Arguments flat_shift_list {A} c.

(** The statements under [if shift_df is not None:] up to the definition of
    the closure. A week number that is not in the table is reported with
    [st.error] and the script is ended by [st.stop()], which raises
    [StopException]; a group that is not in [group_list] makes
    [list.index] raise [ValueError]. *)
Definition script_context {cell : Type} (shift_df : dataframe cell)
  (ref_date_input : date) (ref_week_input : Z) (ref_group_input : string)
  : res (context (loc_value cell)) :=
  flat_shift_list <- flatten_shift_data (Some shift_df) ;;
  week_row_index <-
    match index Z.eqb (sorted (df_index shift_df)) ref_week_input with
    | Ok i => Ok i
    | Raise ValueError => Raise StopException
    | Raise e => Raise e
    end ;;
  group_col_index <- index String.eqb group_list ref_group_input ;;
  let ref_shift_index := week_row_index * len group_list + group_col_index in
  Ok (mkcontext ref_date_input ref_shift_index flat_shift_list).

Definition get_kinmu_for_calendar {A : Type} (c : context A)
  (target_date : date) : res (value A * value A * string) :=
  get_daily_kinmu target_date (ref_date c) (ref_shift_index c)
    (flat_shift_list c).

(** ** The colour of a duty in [create_calendar_html]

    [kinmu_color s] is the value of [color] after the [if]/[elif] chain,
    for [s = str(kinmu)]. *)
Definition kinmu_color (s : string) : string :=
  if ((s =? "公") || (s =? "休"))%string then "red"
  else if contains "泊" s then "blue"
  else if contains "明" s then "green"
  else "black".

(** The display categories, read off the colour. *)
Inductive category : Type := DayOff | Overnight | MorningAfter | Regular.

Definition category_of_color (color : string) : option category :=
  if (color =? "red")%string then Some DayOff
  else if (color =? "blue")%string then Some Overnight
  else if (color =? "green")%string then Some MorningAfter
  else if (color =? "black")%string then Some Regular
  else None.

(** ** Definitions used to state the properties *)

(** The values a loop appends, one per element, when no iteration raises. *)
Fixpoint collect {A B : Type} (f : A -> res B) (xs : list A) : res (list B) :=
  match xs with
  | [] => Ok []
  | x :: xs' =>
      y <- f x ;;
      ys <- collect f xs' ;;
      Ok (y :: ys)
  end.

(** The label [n] places after [g] in the canonical group order, wrapping
    from the last label to the first; [group_after 1] is the successor. *)
Definition group_after (n : Z) (g : string) : res string :=
  p <- index String.eqb group_list g ;;
  getitem group_list ((p + n) mod len group_list).

(** ** A three-week table used in the examples *)

Definition line (p : string) : row string :=
  (mkrow (p ++ "1") (p ++ "2") (p ++ "3") (p ++ "4")
         (p ++ "5") (p ++ "6") (p ++ "7"))%string.

Definition sample_df : dataframe string :=
  [(1, line "a"); (2, line "b"); (3, line "c")].

Definition day (n : Z) : date := mkdate n.

(** Its flat list. *)
Definition sample_flat : list (loc_value string) :=
  map (fun s => Scalar s)
    ["a1"; "a2"; "a3"; "a4"; "a5"; "a6"; "a7";
     "b1"; "b2"; "b3"; "b4"; "b5"; "b6"; "b7";
     "c1"; "c2"; "c3"; "c4"; "c5"; "c6"; "c7"].

(** ** The table, line by line *)

(** The seven cells of a line, in the order of [group_list]. *)
Definition row_cells {cell : Type} (r : row cell) : list cell :=
  [col_i _ r; col_ro _ r; col_ha _ r; col_ni _ r;
   col_ho _ r; col_he _ r; col_to _ r].

(** ** The settings of the sidebar

    [settings.json] as the script writes it: the four keys of [new_config],
    each present or absent. [config = {}] is the record with every key
    absent. *)
Record settings : Type := mksettings {
  cfg_selected_csv : option string;
  cfg_ref_date : option string;
  cfg_ref_week : option Z;
  cfg_ref_group : option string
}.

Definition empty_config : settings := mksettings None None None None.

(** [config.get(key, default)] on one key. *)
Definition dict_get {T : Type} (entry : option T) (default : T) : T :=
  match entry with
  | Some v => v
  | None => default
  end.

(** [x in l] on a list of strings. *)
Definition str_in (x : string) (l : list string) : bool :=
  existsb (fun y => String.eqb y x) l.

(** The [try]/[except ValueError] that computes [default_group_index]. *)
Definition default_group_index (config : settings) : res Z :=
  match index String.eqb group_list (dict_get (cfg_ref_group config) "ハ") with
  | Ok i => Ok i
  | Raise ValueError => Ok 0
  | Raise e => Raise e
  end.

(** From the listing of the CSV files to the [index] argument of the file
    select box. An empty listing is reported and ends the script. *)
Definition csv_select_index (csv_files : list string) (config : settings)
  : res Z :=
  match csv_files with
  | [] => Raise StopException
  | _ :: _ =>
      let default_selected_csv := dict_get (cfg_selected_csv config) "" in
      default_selected_csv <-
        (if negb (str_in default_selected_csv csv_files)
         then getitem csv_files 0
         else Ok default_selected_csv) ;;
      index String.eqb csv_files default_selected_csv
  end.

(** The dictionary the save button writes; [ref_date] is the text
    [strftime] made of the reference date. *)
Definition new_config (selected_csv_file : string) (ref_date_text : string)
  (ref_week_input : Z) (ref_group_input : string) : settings :=
  mksettings (Some selected_csv_file) (Some ref_date_text)
             (Some ref_week_input) (Some ref_group_input).

(** ** [create_calendar_html] *)

(** The double quote character. *)
Definition dq : string := String (ascii_of_nat 34) EmptyString.

(** [str(n)] for an integer. *)
Definition str_int (n : Z) : string := NilZero.string_of_int (Z.to_int n).

(** [sep.join(l)] *)
Definition join (sep : string) (l : list string) : string :=
  String.concat sep l.

(** [d.weekday()]: Monday is 0. *)
Definition weekday (d : date) : Z := (toordinal d + 6) mod 7.

Definition style_block : string := "
        <style>
        .month-table { border-collapse: collapse; width: 100%; }
        .month-table th { text-align: center; height: 40px; border: 1px solid #ddd; background-color: #f2f2f2; }
        .month-table td { width: 14.2%; height: 120px; vertical-align: top; padding: 5px; border: 1px solid #ddd; }
        .day-number { font-weight: bold; font-size: 1.3em; }
        .week-info { font-size: 0.9em; color: #888; display: block; }
        .kinmu { font-size: 1.1em; display: block; margin-top: 5px; }
        .other-month { background-color: #f9f9f9; }
        .other-month .day-number { color: #ccc; }
        .weekend-day { background-color: #f0f8ff; } /* 土曜日の薄い背景色 */
        .sunday-day { background-color: #ffe0e6; } /* 日曜日の薄いピンク系背景色 */
        </style>
        ".

Definition headers : list string :=
  ["月"; "火"; "水"; "木"; "金"; "土"; "日"].

Section Calendar.

(** The objects of the flat list and their [str()]. *)
Variable A : Type.
Variable str_of : A -> string.

(** [d.month] and [d.day]. *)
Variable month_of : date -> Z.
Variable day_of : date -> Z.

(** [calendar.Calendar(firstweekday=0).monthdatescalendar(year, month)]:
    the weeks of the month, or the exception it raises (a month outside
    1..12, a year whose month reaches past [date.min] or [date.max]). *)
Variable monthdatescalendar : Z -> Z -> res (list (list date)).

(** [str(v)], which is also what an f-string inserts for [v]. *)
Definition str_value (v : value A) : string :=
  match v with
  | VStr s => s
  | VInt n => str_int n
  | VObj a => str_of a
  end.

(** The body of [for day_date in week:]. *)
Definition render_day (month : Z)
  (get_kinmu_func : date -> res (value A * value A * string))
  (day_date : date) (html_parts : list string) : res (list string) :=
  let td_class : list string := [] in
  let td_class :=
    if negb (month_of day_date =? month) then td_class ++ ["other-month"]
    else td_class in
  let td_class :=
    if weekday day_date =? 5 then td_class ++ ["weekend-day"]
    else if weekday day_date =? 6 then td_class ++ ["sunday-day"]
    else td_class in
  let class_attr :=
    match td_class with
    | [] => ""
    | _ :: _ => (" class=" ++ dq ++ join " " td_class ++ dq)%string
    end in
  if negb (month_of day_date =? month) then
    Ok (html_parts ++
        [("<td" ++ class_attr ++ "><span class=" ++ dq ++ "day-number" ++ dq
          ++ ">" ++ str_int (day_of day_date) ++ "</span></td>")%string])
  else
    answer <- get_kinmu_func day_date ;;
    let '(kinmu, shift_week, shift_group) := answer in
    let color := kinmu_color (str_value kinmu) in
    let html_parts := html_parts ++
        [("<td" ++ class_attr ++ "><span class=" ++ dq ++ "day-number" ++ dq
          ++ ">" ++ str_int (day_of day_date) ++ "</span>")%string] in
    let html_parts := html_parts ++
        [("<span class=" ++ dq ++ "week-info" ++ dq ++ ">W"
          ++ str_value shift_week ++ " " ++ shift_group ++ "</span>")%string] in
    let html_parts := html_parts ++
        [("<span class=" ++ dq ++ "kinmu" ++ dq ++ " style=" ++ dq ++ "color:"
          ++ color ++ ";" ++ dq ++ ">" ++ str_value kinmu
          ++ "</span></td>")%string] in
    Ok html_parts.

Definition create_calendar_html (year month : Z)
  (get_kinmu_func : date -> res (value A * value A * string)) : res string :=
  let html_parts :=
    [style_block;
     ("<table class=" ++ dq ++ "month-table" ++ dq ++ ">")%string;
     "<tr>"] in
  html_parts <-
    for_each headers
      (fun day html_parts =>
         Ok (html_parts ++ [("<th>" ++ day ++ "</th>")%string]))
      html_parts ;;
  let html_parts := html_parts ++ ["</tr>"] in
  weeks <- monthdatescalendar year month ;;
  html_parts <-
    for_each weeks
      (fun week html_parts =>
         let html_parts := html_parts ++ ["<tr>"] in
         html_parts <-
           for_each week (render_day month get_kinmu_func) html_parts ;;
         Ok (html_parts ++ ["</tr>"]))
      html_parts ;;
  let html_parts := html_parts ++ ["</table>"] in
  Ok (join "" html_parts).

End Calendar.

Arguments str_value {A} str_of v.
Arguments render_day {A} str_of month_of day_of month get_kinmu_func
  day_date html_parts.
Arguments create_calendar_html {A} str_of month_of day_of monthdatescalendar
  year month get_kinmu_func.

(** ** What the script shows below the sidebar *)

Inductive page : Type :=
| Calendar (html : string)
| NoCalendar
| ErrorMessage (e : exn)
| Stopped.

(** Section 3 of the script: nothing without a table; otherwise the
    calendar, unless [st.stop()] ended the run or the handler of
    [except Exception] reported an exception. *)
Definition script_page {cell : Type} (str_of : loc_value cell -> string)
  (month_of day_of : date -> Z)
  (monthdatescalendar : Z -> Z -> res (list (list date)))
  (shift_df : option (dataframe cell))
  (ref_date_input : date) (ref_week_input : Z) (ref_group_input : string)
  (target_year target_month : Z) : page :=
  match shift_df with
  | None => NoCalendar
  | Some df =>
      match
        (c <- script_context df ref_date_input ref_week_input
                ref_group_input ;;
         create_calendar_html str_of month_of day_of monthdatescalendar
           target_year target_month (get_kinmu_for_calendar c))
      with
      | Ok calendar_html => Calendar calendar_html
      | Raise StopException => Stopped
      | Raise e => ErrorMessage e
      end
  end.

(** May 2024 as [monthdatescalendar] lays it out, from Monday 29 April to
    Sunday 2 June, with the month and the day of each date. *)
Definition may_2024 : list (list date) :=
  [map day [739005; 739006; 739007; 739008; 739009; 739010; 739011];
   map day [739012; 739013; 739014; 739015; 739016; 739017; 739018];
   map day [739019; 739020; 739021; 739022; 739023; 739024; 739025];
   map day [739026; 739027; 739028; 739029; 739030; 739031; 739032];
   map day [739033; 739034; 739035; 739036; 739037; 739038; 739039]].

(** A calendar that knows that one month and raises as the library does
    for a month outside 1..12; used in the examples only. *)
Definition sample_weeks (year month : Z) : res (list (list date)) :=
  if (month <? 1) || (12 <? month) then Raise ValueError
  else Ok may_2024.

Definition sample_month_of (d : date) : Z :=
  if toordinal d <? 739007 then 4
  else if toordinal d <? 739038 then 5
  else 6.

Definition sample_day_of (d : date) : Z :=
  if toordinal d <? 739007 then toordinal d - 738976
  else if toordinal d <? 739038 then toordinal d - 739006
  else toordinal d - 739037.

Definition sample_str_of (v : loc_value string) : string :=
  match v with
  | Scalar s => s
  | Series _ => "Series"
  end.

(** * Facts about the runtime fragment *)

Section RuntimeFacts.

Lemma bind_ok {A B : Type} (m : res A) (k : A -> res B) (b : B) :
  bind m k = Ok b <-> exists a, m = Ok a /\ k a = Ok b.
Proof.
  destruct m as [a|e]; simpl; split.
  - intros H. exists a. split; [reflexivity | exact H].
  - intros [a' [Ha Hk]]. inversion Ha. subst a'. exact Hk.
  - discriminate.
  - intros [a' [Ha _]]. discriminate.
Qed.

Lemma len_group_list : len group_list = 7.
Proof. reflexivity. Qed.

(** In range and non-negative, [l[i]] is the [i]-th element. *)
Lemma getitem_in_range {A : Type} (l : list A) (i : Z) :
  0 <= i < len l ->
  exists a, nth_error l (Z.to_nat i) = Some a /\ getitem l i = Ok a.
Proof.
  intros Hi. unfold getitem.
  destruct (Z.ltb_spec i 0) as [Hneg|_]; [lia|].
  destruct (Z.leb_spec 0 i) as [_|Hneg]; [|lia].
  destruct (Z.ltb_spec i (len l)) as [_|Hbig]; [|lia].
  simpl.
  destruct (nth_error l (Z.to_nat i)) as [a|] eqn:E.
  - exists a. split; reflexivity.
  - apply nth_error_None in E. unfold len in Hi. lia.
Qed.

Lemma index_ok_inv {A : Type} (eqb : A -> A -> bool) (l : list A) (x : A) (i : Z) :
  index eqb l x = Ok i ->
  0 <= i < len l /\
  exists y, nth_error l (Z.to_nat i) = Some y /\ eqb y x = true.
Proof.
  revert i. induction l as [|y l IH]; intros i H; simpl in H.
  - discriminate.
  - destruct (eqb y x) eqn:E.
    + inversion H. subst i. split.
      * unfold len. simpl. lia.
      * exists y. split; [reflexivity | exact E].
    + apply bind_ok in H. destruct H as [j [Hj Hi]].
      inversion Hi. subst i. destruct (IH j Hj) as [Hr [z [Hz Ez]]].
      split.
      * unfold len in *. simpl List.length. lia.
      * exists z. split; [|exact Ez].
        replace (Z.to_nat (j + 1)) with (S (Z.to_nat j)) by lia.
        exact Hz.
Qed.

Lemma index_raise_inv {A : Type} (eqb : A -> A -> bool) (l : list A) (x : A) (e : exn) :
  index eqb l x = Raise e ->
  e = ValueError /\ forall y, In y l -> eqb y x = false.
Proof.
  induction l as [|y l IH]; simpl; intros H.
  - inversion H. split; [reflexivity | intros y []].
  - destruct (eqb y x) eqn:E; [discriminate|].
    destruct (index eqb l x) as [j|e'] eqn:Ej; simpl in H; [discriminate|].
    inversion H. subst e'. destruct (IH eq_refl) as [He Hall].
    split; [exact He|].
    intros z [Hz|Hz]; [subst z; exact E | apply Hall; exact Hz].
Qed.

Lemma index_found {A : Type} (eqb : A -> A -> bool) (l : list A) (x : A) :
  (exists y, In y l /\ eqb y x = true) -> exists i, index eqb l x = Ok i.
Proof.
  intros [y [Hy E]].
  destruct (index eqb l x) as [i|e] eqn:Ei.
  - exists i. reflexivity.
  - apply index_raise_inv in Ei. destruct Ei as [_ Hall].
    rewrite (Hall y Hy) in E. discriminate.
Qed.

(** [sorted] rearranges its argument into ascending order. *)
Lemma insert_sorted_perm (x : Z) (l : list Z) :
  Permutation (insert_sorted x l) (x :: l).
Proof.
  induction l as [|y l IH]; simpl.
  - apply Permutation_refl.
  - destruct (x <? y).
    + apply Permutation_refl.
    + apply perm_trans with (y :: x :: l).
      * apply perm_skip. exact IH.
      * apply perm_swap.
Qed.

Lemma sorted_perm (l : list Z) : Permutation (sorted l) l.
Proof.
  induction l as [|x l IH]; simpl.
  - apply perm_nil.
  - apply perm_trans with (x :: sorted l).
    + apply insert_sorted_perm.
    + apply perm_skip. exact IH.
Qed.

Lemma insert_sorted_ascending (x : Z) (l : list Z) :
  StronglySorted Z.le l -> StronglySorted Z.le (insert_sorted x l).
Proof.
  induction l as [|y l IH]; simpl; intros Hs.
  - constructor; [constructor | constructor].
  - inversion Hs as [|? ? Hl Hy]; subst.
    destruct (Z.ltb_spec x y) as [Hlt|Hge].
    + constructor; [exact Hs|].
      constructor; [lia|].
      eapply Forall_impl; [|exact Hy]. simpl. intros z Hz. lia.
    + constructor; [apply IH; exact Hl|].
      apply Forall_forall. intros z Hz.
      apply (Permutation_in _ (insert_sorted_perm x l)) in Hz.
      destruct Hz as [Hz|Hz]; [subst z; lia|].
      rewrite Forall_forall in Hy. apply Hy. exact Hz.
Qed.

Lemma sorted_ascending (l : list Z) : StronglySorted Z.le (sorted l).
Proof.
  induction l as [|x l IH]; simpl.
  - constructor.
  - apply insert_sorted_ascending. exact IH.
Qed.

Lemma sorted_length (l : list Z) : List.length (sorted l) = List.length l.
Proof. apply Permutation_length. apply sorted_perm. Qed.

Lemma sorted_In (l : list Z) (x : Z) : In x (sorted l) <-> In x l.
Proof.
  split; apply Permutation_in;
    [apply sorted_perm | apply Permutation_sym; apply sorted_perm].
Qed.

End RuntimeFacts.

(** * Facts about the loops of [flatten_shift_data] *)

Section LoopFacts.

Context {A B : Type}.

Lemma for_each_append (f : A -> res B) (xs : list A) (acc : list B) :
  for_each xs (fun x s => v <- f x ;; Ok (s ++ [v])) acc
  = (vs <- collect f xs ;; Ok (acc ++ vs)).
Proof.
  revert acc. induction xs as [|x xs IH]; intros acc; simpl.
  - rewrite app_nil_r. reflexivity.
  - destruct (f x) as [y|e]; simpl; [|reflexivity].
    rewrite IH. destruct (collect f xs) as [ys|e]; simpl; [|reflexivity].
    rewrite <- app_assoc. reflexivity.
Qed.

Lemma collect_total (f : A -> res B) (xs : list A) :
  (forall x, In x xs -> exists y, f x = Ok y) ->
  exists ys, collect f xs = Ok ys.
Proof.
  induction xs as [|x xs IH]; intros Hall; simpl.
  - exists []. reflexivity.
  - destruct (Hall x (or_introl eq_refl)) as [y Hy]. rewrite Hy. simpl.
    destruct IH as [ys Hys].
    + intros z Hz. apply Hall. right. exact Hz.
    + rewrite Hys. simpl. exists (y :: ys). reflexivity.
Qed.

Lemma collect_length (f : A -> res B) (xs : list A) (ys : list B) :
  collect f xs = Ok ys -> List.length ys = List.length xs.
Proof.
  revert ys. induction xs as [|x xs IH]; intros ys H; simpl in H.
  - inversion H. reflexivity.
  - apply bind_ok in H. destruct H as [y [_ H]].
    apply bind_ok in H. destruct H as [ys' [Hys H]].
    inversion H. simpl. rewrite (IH ys' Hys). reflexivity.
Qed.

Lemma collect_nth (f : A -> res B) (xs : list A) (ys : list B) (i : nat) (x : A) :
  collect f xs = Ok ys ->
  nth_error xs i = Some x ->
  exists y, nth_error ys i = Some y /\ f x = Ok y.
Proof.
  revert ys i. induction xs as [|x0 xs IH]; intros ys i H Hx; simpl in H.
  - destruct i; discriminate.
  - apply bind_ok in H. destruct H as [y [Hy H]].
    apply bind_ok in H. destruct H as [ys' [Hys H]].
    inversion H. subst ys. destruct i as [|i]; simpl in *.
    + inversion Hx. subst x0. exists y. split; [reflexivity | exact Hy].
    + apply (IH ys' i Hys Hx).
Qed.

End LoopFacts.

Lemma for_each_nested {W G V : Type} (f : W -> G -> res V)
  (ws : list W) (gs : list G) (acc : list V) :
  for_each ws
    (fun w s => for_each gs (fun g s' => v <- f w g ;; Ok (s' ++ [v])) s) acc
  = (vss <- collect (fun w => collect (f w) gs) ws ;; Ok (acc ++ List.concat vss)).
Proof.
  revert acc. induction ws as [|w ws IH]; intros acc; simpl.
  - rewrite app_nil_r. reflexivity.
  - rewrite for_each_append.
    destruct (collect (f w) gs) as [vs|e]; simpl; [|reflexivity].
    rewrite IH.
    destruct (collect (fun w0 => collect (f w0) gs) ws) as [vss|e]; simpl;
      [|reflexivity].
    rewrite <- app_assoc. reflexivity.
Qed.

(** Position [i] of the concatenation of blocks of one length [n]. *)
Lemma concat_uniform_length {V : Type} (n : nat) (ls : list (list V)) :
  (forall l, In l ls -> List.length l = n) ->
  List.length (List.concat ls) = (List.length ls * n)%nat.
Proof.
  induction ls as [|l ls IH]; intros Hn; simpl.
  - reflexivity.
  - rewrite length_app, IH.
    + rewrite (Hn l (or_introl eq_refl)). reflexivity.
    + intros l' Hl'. apply Hn. right. exact Hl'.
Qed.

Lemma concat_uniform_nth {V : Type} (n : nat) (ls : list (list V)) (q r : nat) (l : list V) :
  (forall l', In l' ls -> List.length l' = n) ->
  (r < n)%nat ->
  nth_error ls q = Some l ->
  nth_error (List.concat ls) (q * n + r) = nth_error l r.
Proof.
  revert q. induction ls as [|l0 ls IH]; intros q Hn Hr Hq.
  - destruct q; discriminate.
  - destruct q as [|q]; simpl in *.
    + inversion Hq. subst l0.
      apply nth_error_app1. rewrite (Hn l (or_introl eq_refl)). exact Hr.
    + rewrite nth_error_app2; rewrite (Hn l0 (or_introl eq_refl)); [|lia].
      replace (n + q * n + r - n)%nat with (q * n + r)%nat by lia.
      apply IH; [|exact Hr|exact Hq].
      intros l' Hl'. apply Hn. right. exact Hl'.
Qed.

(** * Facts about the table and its flattening *)

Section TableFacts.

Context {cell : Type}.

Lemma column_group_list (group : string) (r : row cell) :
  In group group_list -> exists c, column group r = Ok c.
Proof.
  intros H. unfold group_list in H. simpl in H.
  repeat (destruct H as [H|H]; [subst group; eexists; reflexivity|]).
  contradiction.
Qed.

Lemma columns_group_list (group : string) (rs : list (row cell)) :
  In group group_list -> exists cs, columns group rs = Ok cs.
Proof.
  intros H. induction rs as [|r rs [cs IH]]; simpl.
  - exists []. reflexivity.
  - destruct (column_group_list group r H) as [c Hc].
    rewrite Hc, IH. simpl. exists (c :: cs). reflexivity.
Qed.

Lemma rows_labelled_nonempty (df : dataframe cell) (w : Z) :
  In w (df_index df) -> rows_labelled df w <> [].
Proof.
  unfold rows_labelled, df_index.
  induction df as [|[w0 r0] df IH]; simpl; intros H.
  - contradiction.
  - destruct (Z.eqb_spec w0 w) as [E|E]; simpl.
    + discriminate.
    + destruct H as [H|H]; [contradiction|]. apply IH. exact H.
Qed.

Lemma rows_labelled_absent (df : dataframe cell) (w : Z) :
  ~ In w (df_index df) -> rows_labelled df w = [].
Proof.
  unfold rows_labelled, df_index.
  induction df as [|[w0 r0] df IH]; simpl; intros H.
  - reflexivity.
  - destruct (Z.eqb_spec w0 w) as [E|E]; simpl.
    + exfalso. apply H. left. exact E.
    + apply IH. intros Hin. apply H. right. exact Hin.
Qed.

(** A label that occurs once selects the one line that carries it. *)
Lemma rows_labelled_unique (df : dataframe cell) (w : Z) :
  NoDup (df_index df) -> In w (df_index df) ->
  exists r, In (w, r) df /\ rows_labelled df w = [r].
Proof.
  induction df as [|[w0 r0] df IH]; simpl; intros Hnd H.
  - contradiction.
  - inversion Hnd as [|? ? Hnotin Hnd']; subst.
    unfold rows_labelled. simpl.
    destruct (Z.eqb_spec w0 w) as [E|E]; simpl.
    + subst w0. exists r0. split; [left; reflexivity|].
      f_equal. apply (rows_labelled_absent df w Hnotin).
    + destruct H as [H|H]; [contradiction|].
      destruct (IH Hnd' H) as [r [Hr Hrows]].
      exists r. split; [right; exact Hr | exact Hrows].
Qed.

(** [shift_df.loc] does not raise on a label of the index and a group of
    [group_list]. *)
Lemma loc_total (df : dataframe cell) (w : Z) (group : string) :
  In w (df_index df) -> In group group_list ->
  exists v, loc df w group = Ok v.
Proof.
  intros Hw Hg. unfold loc.
  pose proof (rows_labelled_nonempty df w Hw) as Hne.
  destruct (rows_labelled df w) as [|r [|r' rs]]; [contradiction| |].
  - destruct (column_group_list group r Hg) as [c Hc].
    rewrite Hc. simpl. eexists. reflexivity.
  - destruct (columns_group_list group (r :: r' :: rs) Hg) as [cs Hcs].
    rewrite Hcs. simpl. eexists. reflexivity.
Qed.

Lemma loc_unique (df : dataframe cell) (w : Z) (group : string) (v : loc_value cell) :
  NoDup (df_index df) -> In w (df_index df) ->
  loc df w group = Ok v ->
  exists r c, In (w, r) df /\ column group r = Ok c /\ v = Scalar c.
Proof.
  intros Hnd Hw Hloc.
  destruct (rows_labelled_unique df w Hnd Hw) as [r [Hr Hrows]].
  unfold loc in Hloc. rewrite Hrows in Hloc.
  apply bind_ok in Hloc. destruct Hloc as [c [Hc Hv]].
  inversion Hv. exists r, c. repeat split; assumption.
Qed.

(** The flat list: it exists, has seven entries per line, and entry
    [q * 7 + r] is [shift_df.loc] at the [q]-th smallest label and the
    [r]-th group. *)
Lemma flatten_cells (df : dataframe cell) :
  exists flat,
    flatten_shift_data (Some df) = Ok flat /\
    List.length flat = (List.length df * 7)%nat /\
    forall q r w group,
      nth_error (sorted (df_index df)) q = Some w ->
      nth_error group_list r = Some group ->
      exists v, loc df w group = Ok v /\
                nth_error flat (q * 7 + r) = Some v.
Proof.
  unfold flatten_shift_data. rewrite for_each_nested.
  destruct (collect_total (fun w => collect (loc df w) group_list)
              (sorted (df_index df))) as [vss Hvss].
  { intros w Hw. apply collect_total. intros g Hg.
    apply loc_total; [apply sorted_In; exact Hw | exact Hg]. }
  rewrite Hvss. simpl. exists (List.concat vss).
  assert (Hblock : forall l, In l vss -> List.length l = 7%nat).
  { intros l Hl. apply In_nth_error in Hl. destruct Hl as [q Hq].
    assert (Hlt : (q < List.length (sorted (df_index df)))%nat).
    { rewrite <- (collect_length _ _ _ Hvss).
      apply nth_error_Some. rewrite Hq. discriminate. }
    destruct (nth_error (sorted (df_index df)) q) as [w|] eqn:Ew;
      [|apply nth_error_None in Ew; lia].
    destruct (collect_nth _ _ _ _ _ Hvss Ew) as [l' [Hl' Hc]].
    rewrite Hq in Hl'. inversion Hl'. subst l'.
    apply collect_length in Hc. exact Hc. }
  split; [reflexivity|]. split.
  - rewrite (concat_uniform_length 7 vss Hblock).
    rewrite (collect_length _ _ _ Hvss), sorted_length.
    unfold df_index. rewrite length_map. reflexivity.
  - intros q r w group Hw Hg.
    destruct (collect_nth _ _ _ _ _ Hvss Hw) as [l [Hl Hc]].
    destruct (collect_nth _ _ _ _ _ Hc Hg) as [v [Hv Hloc]].
    exists v. split; [exact Hloc|].
    rewrite (concat_uniform_nth 7 vss q r l Hblock); [exact Hv| |exact Hl].
    rewrite <- (Hblock l (nth_error_In _ _ Hl)).
    apply nth_error_Some. rewrite Hv. discriminate.
Qed.

End TableFacts.

(** * Facts about [get_daily_kinmu] *)

Section ResolverFacts.

Context {A : Type}.

(** On a list that is not empty the query evaluates every step without
    raising, at the index [(ref_shift_index + day_difference) % total_shifts]. *)
Lemma get_daily_kinmu_nonempty (target_date ref_date : date)
  (ref_shift_index : Z) (flat : list A) :
  flat <> [] ->
  let target_index :=
    (ref_shift_index + sub_days target_date ref_date) mod len flat in
  0 <= target_index < len flat /\
  exists kinmu group,
    nth_error flat (Z.to_nat target_index) = Some kinmu /\
    nth_error group_list (Z.to_nat (target_index mod 7)) = Some group /\
    get_daily_kinmu target_date ref_date ref_shift_index flat
    = Ok (VObj kinmu, VInt (target_index / 7 + 1), group).
Proof.
  intros Hne target_index.
  assert (Hpos : 0 < len flat).
  { destruct flat; [contradiction|]. unfold len. simpl List.length. lia. }
  assert (Hti : 0 <= target_index < len flat).
  { apply Z.mod_pos_bound. exact Hpos. }
  split; [exact Hti|].
  destruct (getitem_in_range flat target_index Hti) as [kinmu [Hk Hgk]].
  assert (Hgi : 0 <= target_index mod 7 < len group_list).
  { rewrite len_group_list. apply Z.mod_pos_bound. lia. }
  destruct (getitem_in_range group_list (target_index mod 7) Hgi)
    as [group [Hg Hgg]].
  exists kinmu, group. split; [exact Hk|]. split; [exact Hg|].
  unfold get_daily_kinmu. destruct flat as [|a flat']; [contradiction|].
  unfold mod_ at 1.
  destruct (Z.eqb_spec (len (a :: flat')) 0) as [E|_]; [lia|].
  cbn [bind]. fold target_index.
  rewrite len_group_list. unfold floordiv, mod_. cbn [Z.eqb bind].
  rewrite Hgg. cbn [bind]. rewrite Hgk. reflexivity.
Qed.

(** Two target dates whose day differences to the reference date differ by
    the length of the list get the same answer. *)
Lemma get_daily_kinmu_shift (t t' ref_date : date) (ref_shift_index : Z)
  (flat : list A) :
  toordinal t' = toordinal t + len flat ->
  get_daily_kinmu t' ref_date ref_shift_index flat
  = get_daily_kinmu t ref_date ref_shift_index flat.
Proof.
  intros Ht. unfold get_daily_kinmu, sub_days, mod_ at 1 3.
  destruct flat as [|a flat']; [reflexivity|].
  rewrite Ht.
  replace (ref_shift_index + (toordinal t + len (a :: flat') - toordinal ref_date))
    with (ref_shift_index + (toordinal t - toordinal ref_date)
          + 1 * len (a :: flat')) by lia.
  rewrite Z_mod_plus_full. reflexivity.
Qed.

End ResolverFacts.

(** The double remainder of a language whose remainder truncates towards
    zero is Python's [%]. *)
Lemma double_rem_is_mod (x n : Z) :
  0 < n -> Z.rem (Z.rem x n + n) n = x mod n.
Proof.
  intros Hn.
  assert (Hr : - n < Z.rem x n < n).
  { pose proof (Z.rem_bound_abs x n ltac:(lia)). lia. }
  rewrite Z.rem_mod_nonneg by lia.
  rewrite (Z.rem_eq x n) by lia.
  replace (x - n * (x ÷ n) + n) with (x + (1 - x ÷ n) * n) by lia.
  apply Z_mod_plus_full.
Qed.

Lemma double_mod_is_mod (x n : Z) :
  0 < n -> (x mod n + n) mod n = x mod n.
Proof.
  intros Hn.
  replace (x mod n + n) with (x mod n + 1 * n) by lia.
  rewrite Z_mod_plus_full. apply Z.mod_mod. lia.
Qed.

(** * The properties of the specification *)

(** C1. Forward query. For a flat schedule of length [N > 0], an anchor
    index in [0, N) and any target date, with [dayOffset] the signed number
    of days from the reference date to the target date, the index
    [targetIndex = ((referenceIndex + dayOffset) mod N + N) mod N] is in
    [0, N) (the same index whether [mod] floors or truncates), and the query
    returns the duty code [FlatSchedule[targetIndex]], the week number
    [(targetIndex div G) + 1] and the group label
    [groupLabels[targetIndex mod G]]. *)
Theorem forward_query {A : Type} (flat : list A) (referenceIndex : Z)
  (targetDate referenceDate : date) :
  flat <> [] ->
  0 <= referenceIndex < len flat ->
  let N := len flat in
  let G := len group_list in
  let dayOffset := sub_days targetDate referenceDate in
  let targetIndex := ((referenceIndex + dayOffset) mod N + N) mod N in
  0 <= targetIndex < N /\
  targetIndex = Z.rem (Z.rem (referenceIndex + dayOffset) N + N) N /\
  exists dutyCode groupLabel,
    nth_error flat (Z.to_nat targetIndex) = Some dutyCode /\
    nth_error group_list (Z.to_nat (targetIndex mod G)) = Some groupLabel /\
    get_daily_kinmu targetDate referenceDate referenceIndex flat
    = Ok (VObj dutyCode, VInt (targetIndex / G + 1), groupLabel).
Proof.
  intros Hne _ N G dayOffset targetIndex.
  assert (HN : 0 < N).
  { subst N. destruct flat; [contradiction|]. unfold len. simpl List.length. lia. }
  assert (Hti : targetIndex = (referenceIndex + dayOffset) mod N).
  { subst targetIndex. apply double_mod_is_mod. exact HN. }
  destruct (get_daily_kinmu_nonempty targetDate referenceDate referenceIndex
              flat Hne) as [Hrange [k [g [Hk [Hg Hq]]]]].
  fold dayOffset N in Hrange, Hk, Hg, Hq. rewrite <- Hti in Hrange, Hk, Hg, Hq.
  split; [exact Hrange|]. split.
  - rewrite double_rem_is_mod by exact HN. exact Hti.
  - exists k, g. subst G. rewrite len_group_list.
    split; [exact Hk|]. split; [exact Hg | exact Hq].
Qed.

Lemma forward_query_witness :
  sample_flat <> [] /\
  0 <= 8 < len sample_flat /\
  get_daily_kinmu (day 738996) (day 739000) 8 sample_flat
  = Ok (VObj (Scalar "a5"), VInt 1, "ホ").
Proof.
  assert (H1 : sample_flat <> []) by discriminate.
  assert (H2 : 0 <= 8 < len sample_flat) by (vm_compute; split; [discriminate | reflexivity]).
  split; [exact H1|]. split; [exact H2|].
  destruct (forward_query sample_flat 8 (day 738996) (day 739000) H1 H2)
    as [_ [_ [k [g [Hk [Hg H]]]]]].
  vm_compute in Hk. vm_compute in Hg.
  inversion Hk. inversion Hg. subst k g. exact H.
Defined.

(** What a successful run of the script body has computed. *)
Lemma script_context_ok {cell : Type} (df : dataframe cell) (rd : date)
  (rw : Z) (rg : string) (ctx : context (loc_value cell)) :
  script_context df rd rw rg = Ok ctx ->
  exists flat i j,
    flatten_shift_data (Some df) = Ok flat /\
    index Z.eqb (sorted (df_index df)) rw = Ok i /\
    index String.eqb group_list rg = Ok j /\
    ctx = mkcontext rd (i * 7 + j) flat.
Proof.
  unfold script_context. intros H.
  apply bind_ok in H. destruct H as [flat [Hflat H]].
  apply bind_ok in H. destruct H as [i [Hi H]].
  apply bind_ok in H. destruct H as [j [Hj H]].
  exists flat, i, j. split; [exact Hflat|]. split.
  - destruct (index Z.eqb (sorted (df_index df)) rw) as [i'|e].
    + inversion Hi. reflexivity.
    + destruct e; discriminate.
  - split; [exact Hj|]. rewrite len_group_list in H. inversion H. reflexivity.
Qed.

Lemma index_Z_nth (l : list Z) (x i : Z) :
  index Z.eqb l x = Ok i ->
  0 <= i < len l /\ nth_error l (Z.to_nat i) = Some x.
Proof.
  intros H. apply index_ok_inv in H. destruct H as [Hr [y [Hy E]]].
  apply Z.eqb_eq in E. subst y. split; assumption.
Qed.

Lemma index_string_nth (l : list string) (x : string) (i : Z) :
  index String.eqb l x = Ok i ->
  0 <= i < len l /\ nth_error l (Z.to_nat i) = Some x.
Proof.
  intros H. apply index_ok_inv in H. destruct H as [Hr [y [Hy E]]].
  apply String.eqb_eq in E. subst y. split; assumption.
Qed.

(** The anchor of a successful run: positions, index and flat list. *)
Lemma script_context_anchor {cell : Type} (df : dataframe cell) (rd : date)
  (rw : Z) (rg : string) (ctx : context (loc_value cell)) :
  script_context df rd rw rg = Ok ctx ->
  exists i j v,
    index Z.eqb (sorted (df_index df)) rw = Ok i /\
    index String.eqb group_list rg = Ok j /\
    0 <= i < len df /\ 0 <= j < 7 /\
    ref_date ctx = rd /\
    ref_shift_index ctx = i * 7 + j /\
    len (flat_shift_list ctx) = len df * 7 /\
    loc df rw rg = Ok v /\
    nth_error (flat_shift_list ctx) (Z.to_nat (i * 7 + j)) = Some v.
Proof.
  intros H. apply script_context_ok in H.
  destruct H as [flat [i [j [Hflat [Hi [Hj Hctx]]]]]].
  destruct (flatten_cells df) as [flat' [Hflat' [Hlen Hcells]]].
  rewrite Hflat in Hflat'. inversion Hflat'. subst flat'. clear Hflat'.
  destruct (index_Z_nth _ _ _ Hi) as [Hir Hin].
  destruct (index_string_nth _ _ _ Hj) as [Hjr Hjn].
  rewrite len_group_list in Hjr.
  assert (Hir' : 0 <= i < len df).
  { unfold len in *. rewrite sorted_length in Hir. unfold df_index in Hir.
    rewrite length_map in Hir. exact Hir. }
  destruct (Hcells _ _ _ _ Hin Hjn) as [v [Hloc Hv]].
  exists i, j, v. subst ctx. simpl.
  repeat split; try assumption; try lia.
  - unfold len. rewrite Hlen. lia.
  - replace (Z.to_nat (i * 7 + j)) with (Z.to_nat i * 7 + Z.to_nat j)%nat by lia.
    exact Hv.
Qed.

(** C2. Periodicity. In a rotation context built from a table of [W] lines
    the flat schedule has length [N = W * G], and a date and the date [N]
    days later resolve to the same (duty code, week number, group label). *)
Theorem resolve_periodic {cell : Type} (df : dataframe cell) (rd : date)
  (rw : Z) (rg : string) (ctx : context (loc_value cell)) (d d' : date) :
  script_context df rd rw rg = Ok ctx ->
  add_days d (len df * len group_list) = Ok d' ->
  len (flat_shift_list ctx) = len df * len group_list /\
  flat_shift_list ctx <> [] /\
  get_kinmu_for_calendar ctx d' = get_kinmu_for_calendar ctx d.
Proof.
  intros Hctx Hadd.
  destruct (script_context_anchor _ _ _ _ _ Hctx)
    as [i [j [v [_ [_ [Hi [_ [_ [_ [Hlen [_ _]]]]]]]]]]].
  rewrite len_group_list in *.
  split; [exact Hlen|]. split.
  - intros E. rewrite E in Hlen. change (len (@nil (loc_value cell))) with 0 in Hlen.
    lia.
  - unfold get_kinmu_for_calendar. apply get_daily_kinmu_shift.
    unfold add_days in Hadd.
    destruct ((MINORDINAL <=? toordinal d + len df * 7)
              && (toordinal d + len df * 7 <=? MAXORDINAL))%bool;
      [|discriminate].
    inversion Hadd. simpl. rewrite Hlen. reflexivity.
Qed.

Lemma resolve_periodic_witness :
  script_context sample_df (day 739000) 2 "ロ"
  = Ok (mkcontext (day 739000) 8 sample_flat) /\
  add_days (day 738996) (len sample_df * len group_list) = Ok (day 739017) /\
  get_kinmu_for_calendar (mkcontext (day 739000) 8 sample_flat) (day 739017)
  = get_kinmu_for_calendar (mkcontext (day 739000) 8 sample_flat) (day 738996).
Proof.
  assert (H1 : script_context sample_df (day 739000) 2 "ロ"
               = Ok (mkcontext (day 739000) 8 sample_flat)) by reflexivity.
  assert (H2 : add_days (day 738996) (len sample_df * len group_list)
               = Ok (day 739017)) by reflexivity.
  split; [exact H1|]. split; [exact H2|].
  exact (proj2 (proj2 (resolve_periodic sample_df (day 739000) 2 "ロ" _
                         (day 738996) (day 739017) H1 H2))).
Defined.

(** C3. Anchor self-consistency. When the anchor was built from a week
    number and a group label, with
    [referenceIndex = rowPosition(week) * G + groupPosition(group)],
    resolving the reference date returns the table cell at that week and
    group, the 1-based position of the week among the sorted week numbers,
    and the group label; when the week numbers of the table are distinct
    that cell is the cell of the one line labelled with the week. *)
Theorem anchor_self_consistent {cell : Type} (df : dataframe cell) (rd : date)
  (rw : Z) (rg : string) (ctx : context (loc_value cell)) :
  script_context df rd rw rg = Ok ctx ->
  exists rowPosition groupPosition v,
    index Z.eqb (sorted (df_index df)) rw = Ok rowPosition /\
    index String.eqb group_list rg = Ok groupPosition /\
    ref_shift_index ctx = rowPosition * len group_list + groupPosition /\
    loc df rw rg = Ok v /\
    get_kinmu_for_calendar ctx (ref_date ctx)
    = Ok (VObj v, VInt (rowPosition + 1), rg) /\
    (NoDup (df_index df) ->
     exists r c, In (rw, r) df /\ column rg r = Ok c /\ v = Scalar c).
Proof.
  intros Hctx.
  destruct (script_context_anchor _ _ _ _ _ Hctx)
    as [i [j [v [Hi [Hj [Hir [Hjr [Hrd [Hidx [Hlen [Hloc Hv]]]]]]]]]]].
  exists i, j, v. rewrite len_group_list.
  split; [exact Hi|]. split; [exact Hj|]. split; [exact Hidx|].
  split; [exact Hloc|]. split.
  - assert (Hne : flat_shift_list ctx <> []).
    { intros E. rewrite E in Hv. destruct (Z.to_nat (i * 7 + j)); discriminate. }
    destruct (get_daily_kinmu_nonempty (ref_date ctx) (ref_date ctx)
                (ref_shift_index ctx) (flat_shift_list ctx) Hne)
      as [_ [k [g [Hk [Hg Hq]]]]].
    unfold sub_days in *. rewrite Z.sub_diag, Z.add_0_r, Hidx, Hlen in *.
    rewrite (Z.mod_small (i * 7 + j)) in * by lia.
    replace ((i * 7 + j) mod 7) with j in Hg
      by (rewrite Z.add_comm, Z_mod_plus_full, Z.mod_small; lia).
    replace ((i * 7 + j) / 7) with i in Hq
      by (rewrite Z.add_comm, Z_div_plus_full, Z.div_small; lia).
    destruct (index_string_nth _ _ _ Hj) as [_ Hjn].
    rewrite Hv in Hk. rewrite Hjn in Hg. inversion Hk. inversion Hg.
    subst k g. unfold get_kinmu_for_calendar. rewrite Hidx. exact Hq.
  - intros Hnd. apply (loc_unique df rw rg v Hnd); [|exact Hloc].
    apply index_Z_nth in Hi. destruct Hi as [_ Hi].
    apply nth_error_In in Hi. apply (proj1 (sorted_In _ _)) in Hi. exact Hi.
Qed.

Lemma anchor_self_consistent_witness :
  script_context sample_df (day 739000) 2 "ロ"
  = Ok (mkcontext (day 739000) 8 sample_flat) /\
  get_kinmu_for_calendar (mkcontext (day 739000) 8 sample_flat) (day 739000)
  = Ok (VObj (Scalar "b2"), VInt 2, "ロ").
Proof.
  assert (H1 : script_context sample_df (day 739000) 2 "ロ"
               = Ok (mkcontext (day 739000) 8 sample_flat)) by reflexivity.
  split; [exact H1|].
  destruct (anchor_self_consistent sample_df (day 739000) 2 "ロ" _ H1)
    as [i [j [v [Hi [_ [_ [Hloc [H _]]]]]]]].
  vm_compute in Hi. vm_compute in Hloc.
  inversion Hi. inversion Hloc. subst i v. exact H.
Defined.

(** With distinct labels the sorted index is strictly ascending. *)
Lemma sorted_strictly_ascending (l : list Z) :
  NoDup l -> StronglySorted Z.lt (sorted l).
Proof.
  intros Hnd.
  assert (Hnd' : NoDup (sorted l)).
  { apply (Permutation_NoDup (Permutation_sym (sorted_perm l))). exact Hnd. }
  pose proof (sorted_ascending l) as Hs.
  induction Hs as [|x l' Hs IH Hall]; [constructor|].
  inversion Hnd' as [|? ? Hnotin Hnd'']; subst.
  constructor; [apply IH; exact Hnd''|].
  apply Forall_forall. intros y Hy.
  rewrite Forall_forall in Hall. specialize (Hall y Hy).
  assert (x <> y) by (intros E; subst y; contradiction).
  lia.
Qed.

(** C4. Flattening a table whose lines carry distinct week numbers never
    raises; the result has length [W * G]; the week numbers are visited in
    strictly ascending order, each exactly once; and position [i] holds the
    cell of the line whose week number is at sorted position [i div G], in
    the column of the group at position [i mod G]. *)
Theorem flatten_row_major {cell : Type} (df : dataframe cell) :
  NoDup (df_index df) ->
  let weeks := sorted (df_index df) in
  let G := len group_list in
  exists flat,
    flatten_shift_data (Some df) = Ok flat /\
    len flat = len df * G /\
    StronglySorted Z.lt weeks /\
    Permutation weeks (df_index df) /\
    forall i, 0 <= i < len flat ->
      exists week_num r group c,
        nth_error weeks (Z.to_nat (i / G)) = Some week_num /\
        In (week_num, r) df /\
        nth_error group_list (Z.to_nat (i mod G)) = Some group /\
        column group r = Ok c /\
        nth_error flat (Z.to_nat i) = Some (Scalar c).
Proof.
  intros Hnd weeks G.
  destruct (flatten_cells df) as [flat [Hflat [Hlen Hcells]]].
  exists flat. subst G. rewrite len_group_list.
  assert (HlenZ : len flat = len df * 7) by (unfold len; lia).
  split; [exact Hflat|]. split; [exact HlenZ|].
  split; [apply sorted_strictly_ascending; exact Hnd|].
  split; [apply sorted_perm|].
  intros i Hi.
  assert (Hq : 0 <= i / 7 < len df).
  { split; [apply Z.div_pos; lia | apply Z.div_lt_upper_bound; lia]. }
  assert (Hr : 0 <= i mod 7 < 7) by (apply Z.mod_pos_bound; lia).
  destruct (nth_error weeks (Z.to_nat (i / 7))) as [w|] eqn:Ew.
  2:{ apply nth_error_None in Ew. subst weeks. rewrite sorted_length in Ew.
      unfold df_index in Ew. rewrite length_map in Ew. unfold len in Hq. lia. }
  destruct (nth_error group_list (Z.to_nat (i mod 7))) as [g|] eqn:Eg.
  2:{ apply nth_error_None in Eg. simpl List.length in Eg. lia. }
  destruct (Hcells _ _ _ _ Ew Eg) as [v [Hloc Hv]].
  assert (Hw : In w (df_index df)).
  { apply sorted_In. apply (nth_error_In _ _ Ew). }
  destruct (loc_unique df w g v Hnd Hw Hloc) as [r [c [Hin [Hc Hvc]]]].
  exists w, r, g, c. subst v.
  repeat split; try assumption; try reflexivity.
  replace (Z.to_nat i) with (Z.to_nat (i / 7) * 7 + Z.to_nat (i mod 7))%nat.
  - exact Hv.
  - pose proof (Z.div_mod i 7 ltac:(lia)). lia.
Qed.

Lemma flatten_row_major_witness :
  NoDup (df_index sample_df) /\
  flatten_shift_data (Some sample_df) = Ok sample_flat /\
  len sample_flat = 21.
Proof.
  assert (H1 : NoDup (df_index sample_df)).
  { simpl. repeat constructor; simpl; intuition discriminate. }
  split; [exact H1|].
  destruct (flatten_row_major sample_df H1) as [flat [Hflat [Hlen _]]].
  vm_compute in Hflat. inversion Hflat. subst flat.
  split; [reflexivity | exact Hlen].
Defined.

(** C6. Purity and totality. [get_daily_kinmu] reads nothing but its
    arguments and writes nothing, so its embedding is a function of the
    target date and the rotation context: equal inputs give equal outputs.
    On a context whose flat schedule is not empty it raises for no target
    date, before or after the reference date: the day difference, the
    remainder, the quotient and both list accesses are all defined, and the
    result is a (duty, week, group) triple. *)
Theorem resolve_pure_total {A : Type} (ctx : context A) :
  flat_shift_list ctx <> [] ->
  (forall targetDate, exists dutyCode weekNumber groupLabel,
      get_kinmu_for_calendar ctx targetDate
      = Ok (VObj dutyCode, VInt weekNumber, groupLabel) /\
      1 <= weekNumber /\ In groupLabel group_list /\
      In dutyCode (flat_shift_list ctx)) /\
  (forall ctx' d d', ctx' = ctx -> toordinal d' = toordinal d ->
      get_kinmu_for_calendar ctx' d' = get_kinmu_for_calendar ctx d).
Proof.
  intros Hne. split.
  - intros t.
    destruct (get_daily_kinmu_nonempty t (ref_date ctx) (ref_shift_index ctx)
                (flat_shift_list ctx) Hne) as [Hr [k [g [Hk [Hg Hq]]]]].
    exists k, ((ref_shift_index ctx + sub_days t (ref_date ctx))
               mod len (flat_shift_list ctx) / 7 + 1), g.
    split; [exact Hq|]. split.
    + pose proof (Z.div_pos _ 7 (proj1 Hr) ltac:(lia)). lia.
    + split; [apply (nth_error_In _ _ Hg) | apply (nth_error_In _ _ Hk)].
  - intros ctx' d d' Hc Hd. subst ctx'.
    destruct d as [o], d' as [o']. simpl in Hd. subst o'. reflexivity.
Qed.

Lemma resolve_pure_total_witness :
  flat_shift_list (mkcontext (day 739000) 8 sample_flat) <> [] /\
  exists dutyCode weekNumber groupLabel,
    get_kinmu_for_calendar (mkcontext (day 739000) 8 sample_flat) (day 1)
    = Ok (VObj dutyCode, VInt weekNumber, groupLabel).
Proof.
  assert (H1 : flat_shift_list (mkcontext (day 739000) 8 sample_flat) <> [])
    by discriminate.
  split; [exact H1|].
  destruct (proj1 (resolve_pure_total _ H1) (day 1)) as [k [w [g [H _]]]].
  exists k, w, g. exact H.
Defined.

(** C10. On an empty flat list [get_daily_kinmu] returns the sentinel
    triple, whatever the target date, the reference date and the reference
    index are; it does not raise. *)
Theorem empty_flat_list_sentinel {A : Type} (target_date ref_date : date)
  (ref_shift_index : Z) :
  get_daily_kinmu target_date ref_date ref_shift_index (@nil A)
  = Ok (VStr "データなし", VStr "-", "-").
Proof. reflexivity. Qed.

Lemma index_absent {X : Type} (eqb : X -> X -> bool) (l : list X) (x : X) :
  (forall y, In y l -> eqb y x = false) -> index eqb l x = Raise ValueError.
Proof.
  intros Hall. destruct (index eqb l x) as [i|e] eqn:E.
  - apply index_ok_inv in E. destruct E as [_ [y [Hy Ey]]].
    rewrite (Hall y (nth_error_In _ _ Hy)) in Ey. discriminate.
  - apply index_raise_inv in E. destruct E as [E _]. rewrite E. reflexivity.
Qed.

(** C7. An empty rotation context is rejected at construction: for a table
    without lines the script body builds no context, whatever the anchor,
    because the week look-up finds no week number and ends the run. So
    every context that is built comes from a table with at least one line
    and has a flat schedule of [W * G] entries that is not empty: the
    per-date query of the calendar is never called with an empty flat
    schedule. And on a built context the query fails for no date: it
    returns a (duty, week, group) triple. *)
Theorem empty_context_rejected {cell : Type} :
  (forall (df : dataframe cell) rd rw rg,
      len df = 0 ->
      flatten_shift_data (Some df) = Ok [] /\
      script_context df rd rw rg = Raise StopException) /\
  (forall (df : dataframe cell) rd rw rg ctx,
      script_context df rd rw rg = Ok ctx ->
      0 < len df /\
      len (flat_shift_list ctx) = len df * len group_list /\
      flat_shift_list ctx <> [] /\
      forall d, exists kinmu week group,
          get_kinmu_for_calendar ctx d = Ok (VObj kinmu, VInt week, group)).
Proof.
  split.
  - intros df rd rw rg Hlen.
    destruct df as [|l df]; [split; reflexivity|].
    unfold len in Hlen. simpl List.length in Hlen. lia.
  - intros df rd rw rg ctx Hctx.
    destruct (script_context_anchor _ _ _ _ _ Hctx)
      as [i [j [v [_ [_ [Hi [_ [_ [_ [Hlen [_ Hv]]]]]]]]]]].
    assert (Hne : flat_shift_list ctx <> []).
    { intros E. rewrite E in Hv.
      destruct (Z.to_nat (i * 7 + j)); discriminate. }
    split; [lia|]. split; [rewrite len_group_list; exact Hlen|].
    split; [exact Hne|].
    intros d.
    destruct (get_daily_kinmu_nonempty d (ref_date ctx) (ref_shift_index ctx)
                (flat_shift_list ctx) Hne) as [_ [k [g [_ [_ Hq]]]]].
    eexists k, _, g. exact Hq.
Qed.

Lemma empty_context_rejected_witness :
  (len (@nil (Z * row string)) = 0 /\
   script_context (@nil (Z * row string)) (day 739000) 2 "ロ"
   = Raise StopException) /\
  (script_context sample_df (day 739000) 2 "ロ"
   = Ok (mkcontext (day 739000) 8 sample_flat) /\
   flat_shift_list (mkcontext (day 739000) 8 sample_flat) <> [] /\
   exists kinmu week group,
     get_kinmu_for_calendar (mkcontext (day 739000) 8 sample_flat) (day 1)
     = Ok (VObj kinmu, VInt week, group)).
Proof.
  assert (H0 : len (@nil (Z * row string)) = 0) by reflexivity.
  assert (H1 : script_context sample_df (day 739000) 2 "ロ"
               = Ok (mkcontext (day 739000) 8 sample_flat)) by reflexivity.
  destruct (@empty_context_rejected string) as [Hstop Hok].
  split.
  - split; [exact H0|].
    exact (proj2 (Hstop [] (day 739000) 2 "ロ" H0)).
  - split; [exact H1|].
    destruct (Hok _ _ _ _ _ H1) as [_ [_ [Hne Hq]]].
    split; [exact Hne | exact (Hq (day 1))].
Defined.

(** C8. Anchor construction. A week number that is not a label of the
    table ends the script at the week lookup ([st.error], [st.stop()]); a
    week number of the table with a group label outside the seven canonical
    ones fails with the [ValueError] of the group lookup; a week number of
    the table with a canonical group label gives a context whose reference
    index is in [0, W * G). *)
Theorem anchor_construction {cell : Type} (df : dataframe cell) (rd : date)
  (rw : Z) (rg : string) :
  (~ In rw (df_index df) ->
   script_context df rd rw rg = Raise StopException) /\
  (In rw (df_index df) -> ~ In rg group_list ->
   script_context df rd rw rg = Raise ValueError) /\
  (In rw (df_index df) -> In rg group_list ->
   exists ctx, script_context df rd rw rg = Ok ctx /\
               0 <= ref_shift_index ctx < len df * len group_list).
Proof.
  destruct (flatten_cells df) as [flat [Hflat _]].
  unfold script_context. rewrite Hflat. cbn [bind].
  split; [|split].
  - intros Hw. rewrite index_absent; [reflexivity|].
    intros y Hy. apply Z.eqb_neq. intros E. subst y.
    apply Hw. apply sorted_In. exact Hy.
  - intros Hw Hg.
    destruct (index_found Z.eqb (sorted (df_index df)) rw) as [i Hi].
    { exists rw. split; [apply sorted_In; exact Hw | apply Z.eqb_refl]. }
    rewrite Hi. cbn [bind]. rewrite index_absent; [reflexivity|].
    intros y Hy. apply String.eqb_neq. intros E. subst y. contradiction.
  - intros Hw Hg.
    destruct (index_found Z.eqb (sorted (df_index df)) rw) as [i Hi].
    { exists rw. split; [apply sorted_In; exact Hw | apply Z.eqb_refl]. }
    destruct (index_found String.eqb group_list rg) as [j Hj].
    { exists rg. split; [exact Hg | apply String.eqb_refl]. }
    rewrite Hi, Hj. cbn [bind]. eexists. split; [reflexivity|].
    cbn [ref_shift_index].
    destruct (index_Z_nth _ _ _ Hi) as [Hir _].
    destruct (index_string_nth _ _ _ Hj) as [Hjr _].
    unfold len in Hir. rewrite sorted_length in Hir. unfold df_index in Hir.
    rewrite length_map in Hir. fold (len df) in Hir.
    rewrite len_group_list in *. lia.
Qed.

Lemma anchor_construction_witness :
  (~ In 99 (df_index sample_df) /\
   script_context sample_df (day 739000) 99 "ロ" = Raise StopException) /\
  (In 2 (df_index sample_df) /\ ~ In "A" group_list /\
   script_context sample_df (day 739000) 2 "A" = Raise ValueError) /\
  (In 2 (df_index sample_df) /\ In "ロ" group_list /\
   exists ctx, script_context sample_df (day 739000) 2 "ロ" = Ok ctx /\
               0 <= ref_shift_index ctx < len sample_df * len group_list).
Proof.
  assert (H99 : ~ In 99 (df_index sample_df)).
  { simpl. intuition discriminate. }
  assert (H2 : In 2 (df_index sample_df)) by (simpl; auto).
  assert (HA : ~ In "A" group_list).
  { simpl. intuition discriminate. }
  assert (Hro : In "ロ" group_list) by (simpl; auto).
  split; [|split].
  - split; [exact H99|].
    exact (proj1 (anchor_construction sample_df (day 739000) 99 "ロ") H99).
  - split; [exact H2|]. split; [exact HA|].
    exact (proj1 (proj2 (anchor_construction sample_df (day 739000) 2 "A"))
             H2 HA).
  - split; [exact H2|]. split; [exact Hro|].
    exact (proj2 (proj2 (anchor_construction sample_df (day 739000) 2 "ロ"))
             H2 Hro).
Defined.

Lemma index_group_list (p : Z) (g : string) :
  0 <= p < 7 ->
  nth_error group_list (Z.to_nat p) = Some g ->
  index String.eqb group_list g = Ok p.
Proof.
  intros Hp H.
  assert (Hcases : p = 0 \/ p = 1 \/ p = 2 \/ p = 3 \/ p = 4 \/ p = 5 \/ p = 6)
    by lia.
  repeat (destruct Hcases as [Hc|Hcases];
          [subst p; simpl in H; inversion H; reflexivity|]).
  subst p. simpl in H. inversion H. reflexivity.
Qed.

(** C9. In a rotation context built by the script, the group label of the
    date [n] days after [d] is the label [n] places after the label of [d]
    in the canonical order, wrapping from the last label to the first: for
    [n = 1] it is the successor, and [G] places on is the same label, so the
    labels repeat with period [G] days. *)
Theorem group_label_cycles {cell : Type} (df : dataframe cell) (rd : date)
  (rw : Z) (rg : string) (ctx : context (loc_value cell)) (d dn : date) (n : Z) :
  script_context df rd rw rg = Ok ctx ->
  add_days d n = Ok dn ->
  exists k w g kn wn gn,
    get_kinmu_for_calendar ctx d = Ok (VObj k, VInt w, g) /\
    get_kinmu_for_calendar ctx dn = Ok (VObj kn, VInt wn, gn) /\
    group_after n g = Ok gn /\
    group_after (len group_list) g = Ok g.
Proof.
  intros Hctx Hadd.
  destruct (script_context_anchor _ _ _ _ _ Hctx)
    as [i [j [v [_ [_ [Hir [_ [_ [_ [Hlen [_ Hv]]]]]]]]]]].
  assert (Hne : flat_shift_list ctx <> []).
  { intros E. rewrite E in Hv. destruct (Z.to_nat (i * 7 + j)); discriminate. }
  assert (Hdn : toordinal dn = toordinal d + n).
  { unfold add_days in Hadd.
    destruct ((MINORDINAL <=? toordinal d + n)
              && (toordinal d + n <=? MAXORDINAL))%bool; [|discriminate].
    inversion Hadd. reflexivity. }
  unfold get_kinmu_for_calendar.
  destruct (get_daily_kinmu_nonempty d (ref_date ctx) (ref_shift_index ctx)
              (flat_shift_list ctx) Hne) as [_ [k [g [_ [Hg Hq]]]]].
  destruct (get_daily_kinmu_nonempty dn (ref_date ctx) (ref_shift_index ctx)
              (flat_shift_list ctx) Hne) as [_ [kn [gn [_ [Hgn Hqn]]]]].
  eexists k, _, g, kn, _, gn.
  split; [exact Hq|]. split; [exact Hqn|].
  set (x := ref_shift_index ctx + sub_days d (ref_date ctx)) in *.
  assert (Hx : ref_shift_index ctx + sub_days dn (ref_date ctx) = x + n).
  { subst x. unfold sub_days. lia. }
  rewrite Hx in Hgn. rewrite Hlen in Hg, Hgn.
  assert (Hdiv : (7 | len df * 7)) by (exists (len df); reflexivity).
  rewrite (Z.mod_mod_divide x (len df * 7) 7 Hdiv) in Hg.
  rewrite (Z.mod_mod_divide (x + n) (len df * 7) 7 Hdiv) in Hgn.
  assert (Hp : 0 <= x mod 7 < 7) by (apply Z.mod_pos_bound; lia).
  assert (Hpn : 0 <= (x + n) mod 7 < 7) by (apply Z.mod_pos_bound; lia).
  unfold group_after. rewrite (index_group_list _ _ Hp Hg). cbn [bind].
  rewrite len_group_list. split.
  - rewrite Z.add_mod_idemp_l by lia.
    destruct (getitem_in_range group_list ((x + n) mod 7)) as [g' [Hg' Hget]].
    { rewrite len_group_list. exact Hpn. }
    rewrite Hgn in Hg'. inversion Hg'. subst g'. exact Hget.
  - replace (x mod 7 + 7) with (x mod 7 + 1 * 7) by lia.
    rewrite Z_mod_plus_full, Z.mod_mod by lia.
    destruct (getitem_in_range group_list (x mod 7)) as [g' [Hg' Hget]].
    { rewrite len_group_list. exact Hp. }
    rewrite Hg in Hg'. inversion Hg'. subst g'. exact Hget.
Qed.

Lemma group_label_cycles_witness :
  script_context sample_df (day 739000) 2 "ト"
  = Ok (mkcontext (day 739000) 13 sample_flat) /\
  add_days (day 739000) 1 = Ok (day 739001) /\
  exists k w kn wn,
    get_kinmu_for_calendar (mkcontext (day 739000) 13 sample_flat) (day 739000)
    = Ok (VObj k, VInt w, "ト") /\
    get_kinmu_for_calendar (mkcontext (day 739000) 13 sample_flat) (day 739001)
    = Ok (VObj kn, VInt wn, "イ") /\
    group_after 1 "ト" = Ok "イ".
Proof.
  assert (H1 : script_context sample_df (day 739000) 2 "ト"
               = Ok (mkcontext (day 739000) 13 sample_flat)) by reflexivity.
  assert (H2 : add_days (day 739000) 1 = Ok (day 739001)) by reflexivity.
  split; [exact H1|]. split; [exact H2|].
  destruct (group_label_cycles sample_df (day 739000) 2 "ト" _
              (day 739000) (day 739001) 1 H1 H2)
    as [k [w [g [kn [wn [gn [Hq [Hqn [Hafter _]]]]]]]]].
  assert (Eg : g = "ト").
  { vm_compute in Hq. inversion Hq. reflexivity. }
  assert (Egn : gn = "イ").
  { vm_compute in Hqn. inversion Hqn. reflexivity. }
  subst g gn. exists k, w, kn, wn.
  split; [exact Hq|]. split; [exact Hqn | exact Hafter].
Defined.

(** * The colour classification *)

Lemma prefix_spec (n s : string) :
  prefix n s = true <-> exists r, s = (n ++ r)%string.
Proof.
  revert s. induction n as [|a n IH]; intros s; simpl.
  - destruct s; split; intros _; try reflexivity; eexists; reflexivity.
  - destruct s as [|b s]; simpl.
    + split; [discriminate | intros [r Hr]; discriminate].
    + destruct (ascii_dec a b) as [E|E].
      * subst b. split.
        -- intros H. apply IH in H. destruct H as [r Hr]. exists r.
           rewrite Hr. reflexivity.
        -- intros [r Hr]. inversion Hr. apply IH. exists r. reflexivity.
      * split; [discriminate|]. intros [r Hr]. inversion Hr. congruence.
Qed.

Lemma contains_unfold (n s : string) :
  contains n s
  = if prefix n s then true
    else match s with
         | EmptyString => false
         | String _ s' => contains n s'
         end.
Proof. destruct s; reflexivity. Qed.

Lemma contains_spec (n s : string) :
  contains n s = true <-> exists l r, s = (l ++ n ++ r)%string.
Proof.
  split.
  - induction s as [|a s IH]; rewrite contains_unfold.
    + destruct (prefix n "") eqn:E; [|discriminate].
      intros _. apply prefix_spec in E. destruct E as [r Hr].
      exists "", r. exact Hr.
    + destruct (prefix n (String a s)) eqn:E.
      * intros _. apply prefix_spec in E. destruct E as [r Hr].
        exists "", r. exact Hr.
      * intros H. destruct (IH H) as [l [r Hs]].
        exists (String a l), r. rewrite Hs. reflexivity.
  - intros [l [r Hs]]. revert s Hs.
    induction l as [|a l IH]; intros s Hs; rewrite contains_unfold.
    + assert (E : prefix n s = true) by (apply prefix_spec; exists r; exact Hs).
      rewrite E. reflexivity.
    + subst s.
      destruct (prefix n (String a l ++ n ++ r)); [reflexivity|].
      apply (IH (l ++ n ++ r)%string). reflexivity.
Qed.

(** C5. Every duty-code string gets exactly one category, by the ordered
    rules: equal to "公" or "休" gives DayOff; otherwise containing "泊"
    gives Overnight; otherwise containing "明" gives MorningAfter; otherwise
    Regular. A code that contains both "泊" and "明" and is not a day off
    is therefore Overnight. *)
Theorem classification_total (s : string) :
  let dayoff := s = "公" \/ s = "休" in
  let has := fun needle : string => exists l r, s = (l ++ needle ++ r)%string in
  exists c,
    category_of_color (kinmu_color s) = Some c /\
    (c = DayOff <-> dayoff) /\
    (c = Overnight <-> ~ dayoff /\ has "泊") /\
    (c = MorningAfter <-> ~ dayoff /\ ~ has "泊" /\ has "明") /\
    (c = Regular <-> ~ dayoff /\ ~ has "泊" /\ ~ has "明").
Proof.
  intros dayoff has.
  assert (Hd : ((s =? "公") || (s =? "休"))%string = true <-> dayoff).
  { subst dayoff. rewrite orb_true_iff, !String.eqb_eq. reflexivity. }
  assert (Hh : forall needle, contains needle s = true <-> has needle).
  { intros needle. apply contains_spec. }
  unfold kinmu_color.
  destruct ((s =? "公") || (s =? "休"))%string.
  - exists DayOff. split; [reflexivity|].
    assert (dayoff) by (apply Hd; reflexivity).
    repeat split; intros; try discriminate; tauto.
  - assert (~ dayoff) by (intros D; apply Hd in D; discriminate).
    destruct (contains "泊" s) eqn:E1.
    + exists Overnight. split; [reflexivity|].
      assert (has "泊") by (apply Hh; exact E1).
      repeat split; intros; try discriminate; tauto.
    + assert (~ has "泊") by (intros D; apply Hh in D; congruence).
      destruct (contains "明" s) eqn:E2.
      * exists MorningAfter. split; [reflexivity|].
        assert (has "明") by (apply Hh; exact E2).
        repeat split; intros; try discriminate; tauto.
      * assert (~ has "明") by (intros D; apply Hh in D; congruence).
        exists Regular. split; [reflexivity|].
        repeat split; intros; try discriminate; tauto.
Qed.

(** The order of the rules on codes that hold both marks, and on codes
    that merely start with a day-off mark. *)
Example both_marks_overnight :
  kinmu_color "明泊" = "blue" /\ kinmu_color "泊明" = "blue" /\
  kinmu_color "公" = "red" /\ kinmu_color "休" = "red" /\
  kinmu_color "公休" = "black" /\ kinmu_color "明" = "green".
Proof. repeat split; reflexivity. Qed.

(** * Further properties of the table and its flattening *)

Lemma sorted_of_ascending (l : list Z) :
  StronglySorted Z.lt l -> sorted l = l.
Proof.
  induction 1 as [|x l Hs IH Hall]; simpl; [reflexivity|].
  rewrite IH. destruct l as [|y l']; [reflexivity|]. simpl.
  inversion Hall as [|? ? Hxy _]; subst.
  destruct (Z.ltb_spec x y); [reflexivity | lia].
Qed.

Lemma ascending_NoDup (l : list Z) : StronglySorted Z.lt l -> NoDup l.
Proof.
  induction 1 as [|x l Hs IH Hall]; constructor; [|exact IH].
  intros Hin. rewrite Forall_forall in Hall. specialize (Hall x Hin). lia.
Qed.

(** Two ascending lists with the same elements are the same list. *)
Lemma ascending_unique (l1 l2 : list Z) :
  StronglySorted Z.le l1 -> StronglySorted Z.le l2 ->
  Permutation l1 l2 -> l1 = l2.
Proof.
  intros H1. revert l2. induction H1 as [|x l1 Hs IH Hall]; intros l2 H2 Hp.
  - apply Permutation_nil in Hp. symmetry. exact Hp.
  - destruct l2 as [|y l2].
    + apply Permutation_sym, Permutation_nil in Hp. discriminate.
    + inversion H2 as [|? ? Hs2 Hall2]; subst.
      rewrite Forall_forall in Hall, Hall2.
      assert (Exy : x = y).
      { assert (Hy : In y (x :: l1))
          by (apply (Permutation_in _ (Permutation_sym Hp)); left; reflexivity).
        assert (Hx : In x (y :: l2))
          by (apply (Permutation_in _ Hp); left; reflexivity).
        destruct Hy as [Hy|Hy]; [exact Hy|].
        destruct Hx as [Hx|Hx]; [symmetry; exact Hx|].
        pose proof (Hall y Hy). pose proof (Hall2 x Hx). lia. }
      subst y. f_equal. apply IH; [exact Hs2|].
      apply (Permutation_cons_inv Hp).
Qed.

Lemma sorted_permuted (l l' : list Z) :
  Permutation l l' -> sorted l = sorted l'.
Proof.
  intros Hp. apply ascending_unique; try apply sorted_ascending.
  apply perm_trans with l; [apply sorted_perm|].
  apply perm_trans with l'; [exact Hp|].
  apply Permutation_sym, sorted_perm.
Qed.

Lemma for_each_ext_in {X S : Type} (xs : list X) (f g : X -> S -> res S) (s : S) :
  (forall x s', In x xs -> f x s' = g x s') ->
  for_each xs f s = for_each xs g s.
Proof.
  revert s. induction xs as [|x xs IH]; intros s H; simpl; [reflexivity|].
  rewrite (H x s (or_introl eq_refl)).
  destruct (g x s) as [s'|e]; simpl; [|reflexivity].
  apply IH. intros y s'' Hy. apply H. right. exact Hy.
Qed.

Section FrameFacts.

Context {cell : Type}.

(** With distinct labels, a label names one line. *)
Lemma label_unique (df : dataframe cell) (w : Z) (r r' : row cell) :
  NoDup (df_index df) -> In (w, r) df -> In (w, r') df -> r = r'.
Proof.
  induction df as [|[w0 r0] df IH]; simpl; intros Hnd H H'; [contradiction|].
  inversion Hnd as [|? ? Hnotin Hnd']; subst.
  assert (Hfst : forall x, In (w0, x) df -> False).
  { intros x Hx. apply Hnotin. unfold df_index.
    apply (in_map fst) in Hx. exact Hx. }
  destruct H as [H|H], H' as [H'|H'].
  - congruence.
  - inversion H. subst. exfalso. apply (Hfst _ H').
  - inversion H'. subst. exfalso. apply (Hfst _ H).
  - apply IH; assumption.
Qed.

Lemma rows_labelled_of_line (df : dataframe cell) (w : Z) (r : row cell) :
  NoDup (df_index df) -> In (w, r) df -> rows_labelled df w = [r].
Proof.
  intros Hnd Hin.
  assert (Hw : In w (df_index df)).
  { unfold df_index. apply (in_map fst) in Hin. exact Hin. }
  destruct (rows_labelled_unique df w Hnd Hw) as [r' [Hr' Hrows]].
  rewrite Hrows. f_equal. apply (label_unique df w r' r Hnd Hr' Hin).
Qed.

(** The seven look-ups of one week give the cells of its line. *)
Lemma collect_loc_line (df : dataframe cell) (w : Z) (r : row cell) :
  NoDup (df_index df) -> In (w, r) df ->
  collect (loc df w) group_list = Ok (map Scalar (row_cells r)).
Proof.
  intros Hnd Hin. unfold group_list. simpl collect. unfold loc.
  rewrite (rows_labelled_of_line df w r Hnd Hin). reflexivity.
Qed.

Lemma collect_lines (df rows : dataframe cell) :
  NoDup (df_index df) -> incl rows df ->
  collect (fun w => collect (loc df w) group_list) (df_index rows)
  = Ok (map (fun wr => map Scalar (row_cells (snd wr))) rows).
Proof.
  intros Hnd. induction rows as [|[w r] rows IH]; intros Hincl.
  - reflexivity.
  - change (df_index ((w, r) :: rows)) with (w :: df_index rows).
    cbn [collect].
    rewrite (collect_loc_line df w r Hnd (Hincl _ (or_introl eq_refl))).
    cbn [bind]. rewrite IH; [reflexivity|].
    intros x Hx. apply Hincl. right. exact Hx.
Qed.

Lemma concat_lines (rows : dataframe cell) :
  List.concat (map (fun wr => map Scalar (row_cells (snd wr))) rows)
  = map Scalar (flat_map row_cells (map snd rows)).
Proof.
  induction rows as [|[w r] rows IH]; [reflexivity|].
  cbn [map List.concat flat_map snd]. rewrite IH, map_app. reflexivity.
Qed.

Lemma loc_permuted (df df' : dataframe cell) (w : Z) (group : string) :
  NoDup (df_index df) -> Permutation df df' ->
  loc df' w group = loc df w group.
Proof.
  intros Hnd Hp.
  assert (Hpi : Permutation (df_index df) (df_index df'))
    by (apply Permutation_map; exact Hp).
  assert (Hnd' : NoDup (df_index df'))
    by (apply (Permutation_NoDup Hpi); exact Hnd).
  unfold loc.
  destruct (in_dec Z.eq_dec w (df_index df)) as [Hw|Hw].
  - destruct (rows_labelled_unique df w Hnd Hw) as [r [Hr Hrows]].
    rewrite Hrows.
    rewrite (rows_labelled_of_line df' w r Hnd' (Permutation_in _ Hp Hr)).
    reflexivity.
  - rewrite (rows_labelled_absent df w Hw).
    rewrite (rows_labelled_absent df' w); [reflexivity|].
    intros Hw'. apply Hw.
    apply (Permutation_in _ (Permutation_sym Hpi)). exact Hw'.
Qed.

End FrameFacts.

(** X1. A frame whose week numbers ascend strictly, as [sort_index]
    leaves a table with distinct week numbers, is flattened to the cells of
    its lines in frame order, line after line, each line in the order of
    [group_list]. *)
Theorem flatten_sorted_frame {cell : Type} (df : dataframe cell) :
  StronglySorted Z.lt (df_index df) ->
  flatten_shift_data (Some df)
  = Ok (map Scalar (flat_map row_cells (map snd df))).
Proof.
  intros Hs. unfold flatten_shift_data. rewrite for_each_nested.
  rewrite (sorted_of_ascending _ Hs).
  rewrite (collect_lines df df (ascending_NoDup _ Hs) (incl_refl df)).
  cbn [bind app]. rewrite concat_lines. reflexivity.
Qed.

Lemma flatten_sorted_frame_witness :
  StronglySorted Z.lt (df_index sample_df) /\
  flatten_shift_data (Some sample_df)
  = Ok (map Scalar (flat_map row_cells (map snd sample_df))).
Proof.
  assert (H : StronglySorted Z.lt (df_index sample_df)).
  { simpl. repeat constructor. }
  split; [exact H|]. exact (flatten_sorted_frame sample_df H).
Defined.

(** X2. The flat list does not depend on the order of the lines of the
    frame: with distinct week numbers, any rearrangement of the lines is
    flattened to the same list. *)
Theorem flatten_line_order_irrelevant {cell : Type} (df df' : dataframe cell) :
  NoDup (df_index df) ->
  Permutation df df' ->
  flatten_shift_data (Some df') = flatten_shift_data (Some df).
Proof.
  intros Hnd Hp. unfold flatten_shift_data.
  rewrite (sorted_permuted (df_index df') (df_index df))
    by (apply Permutation_sym, Permutation_map; exact Hp).
  apply for_each_ext_in. intros w s _.
  apply for_each_ext_in. intros g s' _.
  rewrite (loc_permuted df df' w g Hnd Hp). reflexivity.
Qed.

Lemma flatten_line_order_irrelevant_witness :
  NoDup (df_index sample_df) /\
  Permutation sample_df [(3, line "c"); (1, line "a"); (2, line "b")] /\
  flatten_shift_data (Some [(3, line "c"); (1, line "a"); (2, line "b")])
  = flatten_shift_data (Some sample_df).
Proof.
  assert (H1 : NoDup (df_index sample_df)).
  { simpl. repeat constructor; simpl; intuition discriminate. }
  assert (H2 : Permutation sample_df
                 [(3, line "c"); (1, line "a"); (2, line "b")]).
  { unfold sample_df.
    apply perm_trans with [(1, line "a"); (3, line "c"); (2, line "b")].
    - apply perm_skip. apply perm_swap.
    - apply perm_swap. }
  split; [exact H1|]. split; [exact H2|].
  exact (flatten_line_order_irrelevant sample_df _ H1 H2).
Defined.

(** * Further properties of the per-date query *)

(** Everything a successful run of the script body fixes about its
    context. *)
Lemma script_context_cells {cell : Type} (df : dataframe cell) (rd : date)
  (rw : Z) (rg : string) (ctx : context (loc_value cell)) :
  script_context df rd rw rg = Ok ctx ->
  ref_date ctx = rd /\
  0 <= ref_shift_index ctx < len df * 7 /\
  len (flat_shift_list ctx) = len df * 7 /\
  flat_shift_list ctx <> [] /\
  List.length (sorted (df_index df)) = List.length df /\
  forall q r w group,
    nth_error (sorted (df_index df)) q = Some w ->
    nth_error group_list r = Some group ->
    exists v, loc df w group = Ok v /\
              nth_error (flat_shift_list ctx) (q * 7 + r) = Some v.
Proof.
  intros H.
  destruct (script_context_anchor _ _ _ _ _ H)
    as [i [j [v [_ [_ [Hi [Hj [Hrd [Hidx [Hlen [_ Hv]]]]]]]]]]].
  apply script_context_ok in H.
  destruct H as [flat [i' [j' [Hflat [_ [_ Hctx]]]]]].
  destruct (flatten_cells df) as [flat' [Hflat' [_ Hcells]]].
  rewrite Hflat in Hflat'. inversion Hflat'. subst flat'.
  split; [exact Hrd|]. split; [lia|]. split; [exact Hlen|]. split.
  - intros E. rewrite E in Hv. destruct (Z.to_nat (i * 7 + j)); discriminate.
  - split.
    + rewrite sorted_length. unfold df_index. apply length_map.
    + subst ctx. exact Hcells.
Qed.

(** X3. What the calendar shows for a date is a cell of the table: the
    week number returned is between 1 and the number of lines, the group
    returned is one of the seven, and the duty returned is
    [shift_df.loc] at the week number found at that position of the sorted
    index and at that group. *)
Theorem resolve_shows_table_cell {cell : Type} (df : dataframe cell)
  (rd : date) (rw : Z) (rg : string) (ctx : context (loc_value cell))
  (d : date) :
  script_context df rd rw rg = Ok ctx ->
  exists v w g week_num,
    get_kinmu_for_calendar ctx d = Ok (VObj v, VInt w, g) /\
    1 <= w <= len df /\
    In g group_list /\
    nth_error (sorted (df_index df)) (Z.to_nat (w - 1)) = Some week_num /\
    loc df week_num g = Ok v.
Proof.
  intros H.
  destruct (script_context_cells _ _ _ _ _ H)
    as [_ [_ [Hlen [Hne [Hsl Hcells]]]]].
  destruct (get_daily_kinmu_nonempty d (ref_date ctx) (ref_shift_index ctx)
              (flat_shift_list ctx) Hne) as [Hr [k [g [Hk [Hg Hq]]]]].
  set (ti := (ref_shift_index ctx + sub_days d (ref_date ctx))
             mod len (flat_shift_list ctx)) in *.
  rewrite Hlen in Hr.
  assert (Hw : 0 <= ti / 7 < len df).
  { split; [apply Z.div_pos; lia | apply Z.div_lt_upper_bound; lia]. }
  destruct (nth_error (sorted (df_index df)) (Z.to_nat (ti / 7)))
    as [week_num|] eqn:Ew.
  2:{ apply nth_error_None in Ew. rewrite Hsl in Ew. unfold len in Hw. lia. }
  destruct (Hcells _ _ _ _ Ew Hg) as [v [Hloc Hv]].
  replace (Z.to_nat (ti / 7) * 7 + Z.to_nat (ti mod 7))%nat
    with (Z.to_nat ti) in Hv
    by (pose proof (Z.div_mod ti 7 ltac:(lia));
        pose proof (Z.mod_pos_bound ti 7 ltac:(lia)); lia).
  rewrite Hk in Hv. inversion Hv. subst k.
  exists v, (ti / 7 + 1), g, week_num.
  split; [exact Hq|]. split; [lia|].
  split; [apply (nth_error_In _ _ Hg)|].
  replace (ti / 7 + 1 - 1) with (ti / 7) by lia.
  split; [exact Ew | exact Hloc].
Qed.

Lemma resolve_shows_table_cell_witness :
  script_context sample_df (day 739000) 2 "ロ"
  = Ok (mkcontext (day 739000) 8 sample_flat) /\
  get_kinmu_for_calendar (mkcontext (day 739000) 8 sample_flat) (day 739007)
  = Ok (VObj (Scalar "c2"), VInt 3, "ロ") /\
  loc sample_df 3 "ロ" = Ok (Scalar "c2").
Proof.
  assert (H1 : script_context sample_df (day 739000) 2 "ロ"
               = Ok (mkcontext (day 739000) 8 sample_flat)) by reflexivity.
  split; [exact H1|].
  destruct (resolve_shows_table_cell sample_df (day 739000) 2 "ロ" _
              (day 739007) H1) as [v [w [g [wk [Hq [_ [_ [Hwk Hloc]]]]]]]].
  assert (E : v = Scalar "c2" /\ w = 3 /\ g = "ロ").
  { vm_compute in Hq. inversion Hq. repeat split. }
  destruct E as [Ev [Ew Eg]]. subst v w g.
  vm_compute in Hwk. inversion Hwk. subst wk.
  split; [exact Hq | exact Hloc].
Defined.

(** X4. Every cell of the table has its day in each cycle: for the week
    number at position [q] of the sorted index and the group at position
    [r], the date that lies [q * 7 + r - ref_shift_index] days from the
    reference date shows that cell, with week [q + 1] and that group. *)
Theorem every_cell_has_its_day {cell : Type} (df : dataframe cell)
  (rd : date) (rw : Z) (rg : string) (ctx : context (loc_value cell))
  (q r : nat) (week_num : Z) (group : string) (d : date) :
  script_context df rd rw rg = Ok ctx ->
  nth_error (sorted (df_index df)) q = Some week_num ->
  nth_error group_list r = Some group ->
  sub_days d rd = Z.of_nat q * 7 + Z.of_nat r - ref_shift_index ctx ->
  exists v,
    loc df week_num group = Ok v /\
    get_kinmu_for_calendar ctx d = Ok (VObj v, VInt (Z.of_nat q + 1), group).
Proof.
  intros H Hq Hr Hd.
  destruct (script_context_cells _ _ _ _ _ H)
    as [Hrd [_ [Hlen [Hne [Hsl Hcells]]]]].
  destruct (Hcells _ _ _ _ Hq Hr) as [v [Hloc Hv]].
  exists v. split; [exact Hloc|].
  assert (Hqb : (q < List.length df)%nat).
  { rewrite <- Hsl. apply nth_error_Some. rewrite Hq. discriminate. }
  assert (Hrb : (r < 7)%nat).
  { change 7%nat with (List.length group_list).
    apply nth_error_Some. rewrite Hr. discriminate. }
  destruct (get_daily_kinmu_nonempty d (ref_date ctx) (ref_shift_index ctx)
              (flat_shift_list ctx) Hne) as [_ [k [g [Hk [Hg Hres]]]]].
  rewrite Hrd, Hd, Hlen in Hk, Hg, Hres.
  replace (ref_shift_index ctx
           + (Z.of_nat q * 7 + Z.of_nat r - ref_shift_index ctx))
    with (Z.of_nat q * 7 + Z.of_nat r) in Hk, Hg, Hres by lia.
  rewrite (Z.mod_small (Z.of_nat q * 7 + Z.of_nat r)) in Hk, Hg, Hres
    by (unfold len; lia).
  replace ((Z.of_nat q * 7 + Z.of_nat r) mod 7) with (Z.of_nat r) in Hg
    by (rewrite Z.add_comm, Z_mod_plus_full, Z.mod_small; lia).
  replace ((Z.of_nat q * 7 + Z.of_nat r) / 7) with (Z.of_nat q) in Hres
    by (rewrite Z.add_comm, Z_div_plus_full, Z.div_small; lia).
  replace (Z.to_nat (Z.of_nat q * 7 + Z.of_nat r)) with (q * 7 + r)%nat in Hk
    by lia.
  rewrite Nat2Z.id in Hg.
  rewrite Hv in Hk. rewrite Hr in Hg. inversion Hk. inversion Hg. subst k g.
  unfold get_kinmu_for_calendar. rewrite Hrd. exact Hres.
Qed.

Lemma every_cell_has_its_day_witness :
  script_context sample_df (day 739000) 2 "ロ"
  = Ok (mkcontext (day 739000) 8 sample_flat) /\
  nth_error (sorted (df_index sample_df)) 0 = Some 1 /\
  nth_error group_list 2 = Some "ハ" /\
  sub_days (day 738994) (day 739000) = Z.of_nat 0 * 7 + Z.of_nat 2 - 8 /\
  get_kinmu_for_calendar (mkcontext (day 739000) 8 sample_flat) (day 738994)
  = Ok (VObj (Scalar "a3"), VInt 1, "ハ").
Proof.
  assert (H1 : script_context sample_df (day 739000) 2 "ロ"
               = Ok (mkcontext (day 739000) 8 sample_flat)) by reflexivity.
  assert (H2 : nth_error (sorted (df_index sample_df)) 0 = Some 1)
    by reflexivity.
  assert (H3 : nth_error group_list 2 = Some "ハ") by reflexivity.
  assert (H4 : sub_days (day 738994) (day 739000)
               = Z.of_nat 0 * 7 + Z.of_nat 2 - 8) by reflexivity.
  split; [exact H1|]. split; [exact H2|]. split; [exact H3|].
  split; [exact H4|].
  destruct (every_cell_has_its_day sample_df (day 739000) 2 "ロ" _ 0 2 1 "ハ"
              (day 738994) H1 H2 H3 H4) as [v [Hloc Hres]].
  vm_compute in Hloc. inversion Hloc. subst v. exact Hres.
Defined.

(** The group at a position of [group_list] is ト exactly at the last
    position. *)
Lemma last_group_position (p : Z) (g : string) :
  0 <= p < 7 ->
  nth_error group_list (Z.to_nat p) = Some g ->
  (g =? "ト")%string = (p =? 6).
Proof.
  intros Hp H.
  assert (Hcases : p = 0 \/ p = 1 \/ p = 2 \/ p = 3 \/ p = 4 \/ p = 5 \/ p = 6)
    by lia.
  repeat (destruct Hcases as [Hc|Hcases];
          [subst p; simpl in H; inversion H; reflexivity|]).
  subst p. simpl in H. inversion H. reflexivity.
Qed.

(** X5. From one day to the next the week number stays the same, except
    after the last group ト, where it moves to the next week, and from the
    last week back to week 1. *)
Theorem week_advances_after_last_group {cell : Type} (df : dataframe cell)
  (rd : date) (rw : Z) (rg : string) (ctx : context (loc_value cell))
  (d d1 : date) :
  script_context df rd rw rg = Ok ctx ->
  add_days d 1 = Ok d1 ->
  exists k w g k1 w1 g1,
    get_kinmu_for_calendar ctx d = Ok (VObj k, VInt w, g) /\
    get_kinmu_for_calendar ctx d1 = Ok (VObj k1, VInt w1, g1) /\
    w1 = (if (g =? "ト")%string
          then (if w =? len df then 1 else w + 1)
          else w).
Proof.
  intros H Hadd.
  destruct (script_context_cells _ _ _ _ _ H) as [_ [_ [Hlen [Hne _]]]].
  assert (Hd1 : toordinal d1 = toordinal d + 1).
  { unfold add_days in Hadd.
    destruct ((MINORDINAL <=? toordinal d + 1)
              && (toordinal d + 1 <=? MAXORDINAL))%bool; [|discriminate].
    inversion Hadd. reflexivity. }
  unfold get_kinmu_for_calendar.
  destruct (get_daily_kinmu_nonempty d (ref_date ctx) (ref_shift_index ctx)
              (flat_shift_list ctx) Hne) as [Hr [k [g [_ [Hg Hq]]]]].
  destruct (get_daily_kinmu_nonempty d1 (ref_date ctx) (ref_shift_index ctx)
              (flat_shift_list ctx) Hne) as [_ [k1 [g1 [_ [_ Hq1]]]]].
  eexists k, _, g, k1, _, g1.
  split; [exact Hq|]. split; [exact Hq1|].
  set (x := ref_shift_index ctx + sub_days d (ref_date ctx)) in *.
  replace (ref_shift_index ctx + sub_days d1 (ref_date ctx)) with (x + 1)
    by (subst x; unfold sub_days; lia).
  rewrite Hlen in *.
  set (N := len df * 7) in *. set (ti := x mod N) in *.
  assert (Hm : 0 <= ti mod 7 < 7) by (apply Z.mod_pos_bound; lia).
  rewrite (last_group_position _ _ Hm Hg).
  rewrite <- (Z.add_mod_idemp_l x 1 N) by lia. fold ti.
  assert (Hcase : ti + 1 < N \/ ti + 1 = N) by lia.
  destruct Hcase as [Hlt|Heq].
  - rewrite (Z.mod_small (ti + 1) N) by lia.
    destruct (Z.eqb_spec (ti mod 7) 6) as [E6|E6].
    + destruct (Z.eqb_spec (ti / 7 + 1) (len df)) as [Ew|Ew].
      * exfalso. subst N. pose proof (Z.div_mod ti 7 ltac:(lia)). lia.
      * pose proof (Z.div_mod ti 7 ltac:(lia)).
        pose proof (Z.div_mod (ti + 1) 7 ltac:(lia)).
        pose proof (Z.mod_pos_bound (ti + 1) 7 ltac:(lia)). lia.
    + pose proof (Z.div_mod ti 7 ltac:(lia)).
      pose proof (Z.div_mod (ti + 1) 7 ltac:(lia)).
      pose proof (Z.mod_pos_bound (ti + 1) 7 ltac:(lia)). lia.
  - rewrite Heq, Z_mod_same_full. change (0 / 7) with 0.
    assert (E6 : ti mod 7 = 6).
    { replace ti with (6 + (len df - 1) * 7) by (subst N; lia).
      rewrite Z_mod_plus_full. reflexivity. }
    assert (Ew : ti / 7 + 1 = len df).
    { replace ti with (6 + (len df - 1) * 7) by (subst N; lia).
      rewrite Z_div_plus_full by lia. change (6 / 7) with 0. lia. }
    rewrite E6, Ew, !Z.eqb_refl. reflexivity.
Qed.

Lemma week_advances_after_last_group_witness :
  script_context sample_df (day 739000) 3 "ト"
  = Ok (mkcontext (day 739000) 20 sample_flat) /\
  add_days (day 739000) 1 = Ok (day 739001) /\
  exists k k1,
    get_kinmu_for_calendar (mkcontext (day 739000) 20 sample_flat) (day 739000)
    = Ok (VObj k, VInt 3, "ト") /\
    get_kinmu_for_calendar (mkcontext (day 739000) 20 sample_flat) (day 739001)
    = Ok (VObj k1, VInt 1, "イ").
Proof.
  assert (H1 : script_context sample_df (day 739000) 3 "ト"
               = Ok (mkcontext (day 739000) 20 sample_flat)) by reflexivity.
  assert (H2 : add_days (day 739000) 1 = Ok (day 739001)) by reflexivity.
  split; [exact H1|]. split; [exact H2|].
  destruct (week_advances_after_last_group sample_df (day 739000) 3 "ト" _
              (day 739000) (day 739001) H1 H2)
    as [k [w [g [k1 [w1 [g1 [Hq [Hq1 Hw1]]]]]]]].
  assert (E : w = 3 /\ g = "ト").
  { vm_compute in Hq. inversion Hq. split; reflexivity. }
  destruct E as [Ew Eg]. subst w g.
  assert (Eg1 : g1 = "イ").
  { vm_compute in Hq1. inversion Hq1. reflexivity. }
  vm_compute in Hw1. subst w1 g1.
  exists k, k1. split; [exact Hq | exact Hq1].
Defined.

(** X6. Two dates are shown with the same week number and the same group
    exactly when they lie a whole number of cycles apart, that is when the
    difference of the dates is a multiple of [W * 7]. *)
Theorem same_cell_iff_whole_cycles {cell : Type} (df : dataframe cell)
  (rd : date) (rw : Z) (rg : string) (ctx : context (loc_value cell))
  (d d' : date) :
  script_context df rd rw rg = Ok ctx ->
  exists k w g k' w' g',
    get_kinmu_for_calendar ctx d = Ok (VObj k, VInt w, g) /\
    get_kinmu_for_calendar ctx d' = Ok (VObj k', VInt w', g') /\
    ((w = w' /\ g = g') <->
     (toordinal d - toordinal d') mod (len df * len group_list) = 0).
Proof.
  intros H.
  destruct (script_context_cells _ _ _ _ _ H) as [_ [_ [Hlen [Hne _]]]].
  unfold get_kinmu_for_calendar.
  destruct (get_daily_kinmu_nonempty d (ref_date ctx) (ref_shift_index ctx)
              (flat_shift_list ctx) Hne) as [Hr [k [g [_ [Hg Hq]]]]].
  destruct (get_daily_kinmu_nonempty d' (ref_date ctx) (ref_shift_index ctx)
              (flat_shift_list ctx) Hne) as [Hr' [k' [g' [_ [Hg' Hq']]]]].
  eexists k, _, g, k', _, g'.
  split; [exact Hq|]. split; [exact Hq'|].
  rewrite len_group_list, Hlen in *.
  set (x := ref_shift_index ctx + sub_days d (ref_date ctx)) in *.
  set (x' := ref_shift_index ctx + sub_days d' (ref_date ctx)) in *.
  replace (toordinal d - toordinal d') with (x - x')
    by (subst x x'; unfold sub_days; lia).
  rewrite <- Z.cong_iff_0.
  set (ti := x mod (len df * 7)) in *. set (ti' := x' mod (len df * 7)) in *.
  assert (Hm : 0 <= ti mod 7 < 7) by (apply Z.mod_pos_bound; lia).
  assert (Hm' : 0 <= ti' mod 7 < 7) by (apply Z.mod_pos_bound; lia).
  split.
  - intros [Ew Eg]. subst g'.
    pose proof (index_group_list _ _ Hm Hg) as Hi.
    pose proof (index_group_list _ _ Hm' Hg') as Hi'.
    rewrite Hi in Hi'. inversion Hi' as [Em].
    pose proof (Z.div_mod ti 7 ltac:(lia)).
    pose proof (Z.div_mod ti' 7 ltac:(lia)). lia.
  - intros E. rewrite E in *. rewrite Hg in Hg'. inversion Hg'.
    split; reflexivity.
Qed.

Lemma same_cell_iff_whole_cycles_witness :
  script_context sample_df (day 739000) 2 "ロ"
  = Ok (mkcontext (day 739000) 8 sample_flat) /\
  exists k w g k' w' g',
    get_kinmu_for_calendar (mkcontext (day 739000) 8 sample_flat) (day 739042)
    = Ok (VObj k, VInt w, g) /\
    get_kinmu_for_calendar (mkcontext (day 739000) 8 sample_flat) (day 739000)
    = Ok (VObj k', VInt w', g') /\
    w = w' /\ g = g'.
Proof.
  assert (H1 : script_context sample_df (day 739000) 2 "ロ"
               = Ok (mkcontext (day 739000) 8 sample_flat)) by reflexivity.
  split; [exact H1|].
  destruct (same_cell_iff_whole_cycles sample_df (day 739000) 2 "ロ" _
              (day 739042) (day 739000) H1)
    as [k [w [g [k' [w' [g' [Hq [Hq' Hiff]]]]]]]].
  exists k, w, g, k', w', g'.
  split; [exact Hq|]. split; [exact Hq'|].
  apply Hiff. reflexivity.
Defined.

(** * Properties of the sidebar settings *)

Lemma str_in_In (x : string) (l : list string) :
  str_in x l = true <-> In x l.
Proof.
  unfold str_in. rewrite existsb_exists. split.
  - intros [y [Hy E]]. apply String.eqb_eq in E. subst y. exact Hy.
  - intros H. exists x. split; [exact H | apply String.eqb_refl].
Qed.

Lemma index_string_found (l : list string) (x : string) :
  In x l ->
  exists i, index String.eqb l x = Ok i /\ 0 <= i < len l /\
            getitem l i = Ok x.
Proof.
  intros H.
  destruct (index_found String.eqb l x) as [i Hi].
  { exists x. split; [exact H | apply String.eqb_refl]. }
  destruct (index_string_nth _ _ _ Hi) as [Hr Hn].
  destruct (getitem_in_range l i Hr) as [y [Hy Hget]].
  rewrite Hn in Hy. inversion Hy. subst y.
  exists i. repeat split; try assumption; lia.
Qed.

Lemma index_string_absent (l : list string) (x : string) :
  ~ In x l -> index String.eqb l x = Raise ValueError.
Proof.
  intros H. apply index_absent. intros y Hy.
  apply String.eqb_neq. intros E. subst y. contradiction.
Qed.

(** X7. The default of the group select box is always a valid position of
    [group_list]: the position of the configured group when that is one of
    the seven (ハ when the key is absent), and the first position, group イ,
    for any other text. No configuration makes it raise. *)
Theorem default_group_index_valid (config : settings) :
  let configured := dict_get (cfg_ref_group config) "ハ" in
  exists i g,
    default_group_index config = Ok i /\
    0 <= i < len group_list /\
    getitem group_list i = Ok g /\
    (In configured group_list -> g = configured) /\
    (~ In configured group_list -> i = 0 /\ g = "イ").
Proof.
  intros configured. unfold default_group_index. fold configured.
  destruct (in_dec string_dec configured group_list) as [Hin|Hout].
  - destruct (index_string_found group_list configured Hin)
      as [i [Hi [Hr Hget]]].
    rewrite Hi. exists i, configured.
    split; [reflexivity|]. split; [exact Hr|]. split; [exact Hget|].
    split; [reflexivity | contradiction].
  - rewrite (index_string_absent group_list configured Hout).
    exists 0, "イ". split; [reflexivity|].
    split; [rewrite len_group_list; lia|]. split; [reflexivity|].
    split; [contradiction | split; reflexivity].
Qed.

(** X8. With at least one CSV file in the folder the look-up of the
    default file never raises: the index it gives is in range and
    designates the configured file when that is in the listing, and the
    first file of the listing otherwise. *)
Theorem csv_select_index_valid (csv_files : list string) (config : settings) :
  csv_files <> [] ->
  let configured := dict_get (cfg_selected_csv config) "" in
  exists i f,
    csv_select_index csv_files config = Ok i /\
    0 <= i < len csv_files /\
    getitem csv_files i = Ok f /\
    (In configured csv_files -> f = configured) /\
    (~ In configured csv_files -> i = 0 /\ nth_error csv_files 0 = Some f).
Proof.
  intros Hne configured. unfold csv_select_index. fold configured.
  destruct csv_files as [|f0 rest]; [contradiction|].
  destruct (str_in configured (f0 :: rest)) eqn:E; cbn [negb].
  - apply str_in_In in E. cbn [bind].
    destruct (index_string_found _ configured E) as [i [Hi [Hr Hget]]].
    rewrite Hi. exists i, configured.
    split; [reflexivity|]. split; [exact Hr|]. split; [exact Hget|].
    split; [reflexivity | contradiction].
  - assert (Hout : ~ In configured (f0 :: rest)).
    { intros Hin. apply str_in_In in Hin. congruence. }
    change (getitem (f0 :: rest) 0) with (Ok f0). cbn [bind index].
    rewrite String.eqb_refl. exists 0, f0.
    split; [reflexivity|]. split.
    + unfold len. simpl List.length. lia.
    + split; [reflexivity|]. split; [contradiction|].
      intros _. split; reflexivity.
Qed.

Lemma csv_select_index_valid_witness :
  ["a.csv"; "b.csv"] <> [] /\
  csv_select_index ["a.csv"; "b.csv"] (new_config "b.csv" "2025-07-14" 9 "ハ")
  = Ok 1 /\
  csv_select_index ["a.csv"; "b.csv"] empty_config = Ok 0.
Proof.
  assert (H : ["a.csv"; "b.csv"] <> []) by discriminate.
  split; [exact H|].
  destruct (csv_select_index_valid ["a.csv"; "b.csv"]
              (new_config "b.csv" "2025-07-14" 9 "ハ") H)
    as [i [f [Hi _]]].
  destruct (csv_select_index_valid ["a.csv"; "b.csv"] empty_config H)
    as [i' [f' [Hi' _]]].
  split; [rewrite Hi | rewrite Hi'].
  - vm_compute in Hi. inversion Hi. reflexivity.
  - vm_compute in Hi'. inversion Hi'. reflexivity.
Defined.

(** * Properties of the calendar *)

Lemma bind_raise {X Y : Type} (m : res X) (k : X -> res Y) (e : exn) :
  bind m k = Raise e ->
  m = Raise e \/ exists a, m = Ok a /\ k a = Raise e.
Proof.
  destruct m as [a|e']; simpl; intros H.
  - right. exists a. split; [reflexivity | exact H].
  - left. inversion H. reflexivity.
Qed.

(** A loop that raises does so in the body of one of its iterations. *)
Lemma for_each_raise {X S : Type} (xs : list X) (body : X -> S -> res S)
  (s : S) (e : exn) :
  for_each xs body s = Raise e ->
  exists x s', In x xs /\ body x s' = Raise e.
Proof.
  revert s. induction xs as [|x xs IH]; intros s H; simpl in H.
  - discriminate.
  - apply bind_raise in H. destruct H as [H|[s' [_ H]]].
    + exists x, s. split; [left; reflexivity | exact H].
    + destruct (IH s' H) as [y [s'' [Hy Hb]]].
      exists y, s''. split; [right; exact Hy | exact Hb].
Qed.

(** A loop whose body only appends cannot raise. *)
Lemma for_each_pure {X S : Type} (xs : list X) (g : X -> S -> S) (s : S) :
  exists s', for_each xs (fun x s0 => Ok (g x s0)) s = Ok s'.
Proof.
  revert s. induction xs as [|x xs IH]; intros s; simpl.
  - exists s. reflexivity.
  - apply IH.
Qed.

Section CalendarFacts.

Context {A : Type}.
Variable str_of : A -> string.
Variable month_of day_of : date -> Z.
Variable monthdatescalendar : Z -> Z -> res (list (list date)).

(** A cell raises only by its query, and only for a date of the month. *)
Lemma render_day_raise (month : Z)
  (f : date -> res (value A * value A * string)) (d : date)
  (html_parts : list string) (e : exn) :
  render_day str_of month_of day_of month f d html_parts = Raise e ->
  month_of d = month /\ f d = Raise e.
Proof.
  unfold render_day.
  destruct (Z.eqb_spec (month_of d) month) as [E|E]; cbn [negb].
  - destruct (f d) as [[[kinmu shift_week] shift_group]|e']; cbn [bind].
    + discriminate.
    + intros H. inversion H. split; [exact E | reflexivity].
  - discriminate.
Qed.

Lemma render_day_agree (month : Z)
  (f g : date -> res (value A * value A * string)) (d : date)
  (html_parts : list string) :
  (month_of d = month -> f d = g d) ->
  render_day str_of month_of day_of month f d html_parts
  = render_day str_of month_of day_of month g d html_parts.
Proof.
  intros H. unfold render_day.
  destruct (Z.eqb_spec (month_of d) month) as [E|E]; cbn [negb].
  - rewrite (H E). reflexivity.
  - reflexivity.
Qed.

(** The loop over the weeks raises only by the query of a date of the
    month. *)
Lemma weeks_loop_raise (month : Z)
  (f : date -> res (value A * value A * string))
  (weeks : list (list date)) (html_parts : list string) (e : exn) :
  for_each weeks
    (fun week html_parts =>
       html_parts0 <-
         for_each week (render_day str_of month_of day_of month f)
           (html_parts ++ ["<tr>"]) ;;
       Ok (html_parts0 ++ ["</tr>"]))
    html_parts = Raise e ->
  exists week d, In week weeks /\ In d week /\
                 month_of d = month /\ f d = Raise e.
Proof.
  intros H.
  apply for_each_raise in H. destruct H as [week [s' [Hweek H]]].
  apply bind_raise in H. destruct H as [H|[hp' [_ H]]]; [|discriminate].
  apply for_each_raise in H. destruct H as [d [s'' [Hd H]]].
  apply render_day_raise in H. destruct H as [Hm Hf].
  exists week, d. repeat split; assumption.
Qed.

(** The two sources of an exception of [create_calendar_html]. *)
Lemma create_calendar_html_raise (year month : Z)
  (f : date -> res (value A * value A * string)) (e : exn) :
  create_calendar_html str_of month_of day_of monthdatescalendar year month f
  = Raise e ->
  monthdatescalendar year month = Raise e \/
  exists weeks week d,
    monthdatescalendar year month = Ok weeks /\
    In week weeks /\ In d week /\
    month_of d = month /\ f d = Raise e.
Proof.
  unfold create_calendar_html. cbv zeta. intros H.
  apply bind_raise in H. destruct H as [H|[hp [_ H]]].
  - destruct (for_each_pure headers
                (fun day hp => hp ++ [("<th>" ++ day ++ "</th>")%string])
                [style_block;
                 ("<table class=" ++ dq ++ "month-table" ++ dq ++ ">")%string;
                 "<tr>"]) as [s' Hs'].
    rewrite Hs' in H. discriminate.
  - apply bind_raise in H. destruct H as [H|[weeks [Hweeks H]]].
    + left. exact H.
    + right.
      apply bind_raise in H. destruct H as [H|[hp' [_ H]]]; [|discriminate].
      apply weeks_loop_raise in H. destruct H as [week [d [Hw [Hd [Hm Hf]]]]].
      exists weeks, week, d. repeat split; assumption.
Qed.

(** An exception of the calendar library comes out unchanged. *)
Lemma create_calendar_html_calendar_raise (year month : Z)
  (f : date -> res (value A * value A * string)) (e : exn) :
  monthdatescalendar year month = Raise e ->
  create_calendar_html str_of month_of day_of monthdatescalendar year month f
  = Raise e.
Proof.
  intros H. unfold create_calendar_html. cbv zeta.
  destruct (for_each_pure headers
              (fun day hp => hp ++ [("<th>" ++ day ++ "</th>")%string])
              [style_block;
               ("<table class=" ++ dq ++ "month-table" ++ dq ++ ">")%string;
               "<tr>"]) as [s' Hs'].
  rewrite Hs'. cbn [bind]. rewrite H. reflexivity.
Qed.

End CalendarFacts.

(** X10. The exceptions of [create_calendar_html] are those of
    [monthdatescalendar] and of the query, and no other. When
    [monthdatescalendar] raises (a month outside 1..12, say), that
    exception comes out. When it returns the weeks and the query answers
    every date of the displayed month among them, the page is produced.
    And any exception that comes out was raised by [monthdatescalendar] or
    by the query on a date of the displayed month. *)
Theorem calendar_failure_sources {A : Type} (str_of : A -> string)
  (month_of day_of : date -> Z)
  (monthdatescalendar : Z -> Z -> res (list (list date))) (year month : Z)
  (get_kinmu_func : date -> res (value A * value A * string)) :
  (forall e,
     monthdatescalendar year month = Raise e ->
     create_calendar_html str_of month_of day_of monthdatescalendar
       year month get_kinmu_func = Raise e) /\
  (forall weeks,
     monthdatescalendar year month = Ok weeks ->
     (forall week d, In week weeks -> In d week -> month_of d = month ->
                     exists answer, get_kinmu_func d = Ok answer) ->
     exists html,
       create_calendar_html str_of month_of day_of monthdatescalendar
         year month get_kinmu_func = Ok html) /\
  (forall e,
     create_calendar_html str_of month_of day_of monthdatescalendar
       year month get_kinmu_func = Raise e ->
     monthdatescalendar year month = Raise e \/
     exists weeks week d,
       monthdatescalendar year month = Ok weeks /\
       In week weeks /\ In d week /\
       month_of d = month /\ get_kinmu_func d = Raise e).
Proof.
  split; [|split].
  - intros e. apply create_calendar_html_calendar_raise.
  - intros weeks Hweeks Hall.
    destruct (create_calendar_html str_of month_of day_of monthdatescalendar
                year month get_kinmu_func) as [html|e] eqn:E.
    + exists html. reflexivity.
    + apply create_calendar_html_raise in E.
      destruct E as [E|[weeks' [week [d [Hw' [Hw [Hd [Hm Hf]]]]]]]].
      * rewrite Hweeks in E. discriminate.
      * rewrite Hweeks in Hw'. inversion Hw'. subst weeks'.
        destruct (Hall week d Hw Hd Hm) as [answer Ha].
        rewrite Ha in Hf. discriminate.
  - intros e. apply create_calendar_html_raise.
Qed.

Lemma calendar_failure_sources_witness :
  let f := get_kinmu_for_calendar (mkcontext (day 739000) 8 sample_flat) in
  (sample_weeks 2024 13 = Raise ValueError /\
   create_calendar_html sample_str_of sample_month_of sample_day_of
     sample_weeks 2024 13 f = Raise ValueError) /\
  (sample_weeks 2024 5 = Ok may_2024 /\
   exists html,
     create_calendar_html sample_str_of sample_month_of sample_day_of
       sample_weeks 2024 5 f = Ok html).
Proof.
  intros f.
  assert (H13 : sample_weeks 2024 13 = Raise ValueError) by reflexivity.
  assert (H5 : sample_weeks 2024 5 = Ok may_2024) by reflexivity.
  split.
  - split; [exact H13|].
    exact (proj1 (calendar_failure_sources sample_str_of sample_month_of
                    sample_day_of sample_weeks 2024 13 f) _ H13).
  - split; [exact H5|].
    apply (proj1 (proj2 (calendar_failure_sources sample_str_of
                           sample_month_of sample_day_of sample_weeks
                           2024 5 f)) _ H5).
    intros week d _ _ _.
    destruct (get_daily_kinmu_nonempty d (day 739000) 8 sample_flat)
      as [_ [k [g [_ [_ Hq]]]]]; [discriminate|].
    eexists. exact Hq.
Defined.

(** X11. The calendar asks for the duty of the dates of the displayed
    month only: two queries that agree on those dates give the same page,
    whatever they answer for the leading and trailing dates of the
    neighbouring months. *)
Theorem calendar_uses_month_dates_only {A : Type} (str_of : A -> string)
  (month_of day_of : date -> Z)
  (monthdatescalendar : Z -> Z -> res (list (list date))) (year month : Z)
  (f g : date -> res (value A * value A * string)) :
  (forall weeks week d,
     monthdatescalendar year month = Ok weeks ->
     In week weeks -> In d week -> month_of d = month -> f d = g d) ->
  create_calendar_html str_of month_of day_of monthdatescalendar year month f
  = create_calendar_html str_of month_of day_of monthdatescalendar year month g.
Proof.
  intros H. unfold create_calendar_html. cbv zeta.
  destruct (for_each headers _ _) as [hp|e]; cbn [bind]; [|reflexivity].
  destruct (monthdatescalendar year month) as [weeks|e] eqn:Eweeks;
    cbn [bind]; [|reflexivity].
  rewrite (for_each_ext_in weeks
             (fun week html_parts =>
                html_parts0 <-
                  for_each week
                    (render_day str_of month_of day_of month f)
                    (html_parts ++ ["<tr>"]) ;;
                Ok (html_parts0 ++ ["</tr>"]))
             (fun week html_parts =>
                html_parts0 <-
                  for_each week
                    (render_day str_of month_of day_of month g)
                    (html_parts ++ ["<tr>"]) ;;
                Ok (html_parts0 ++ ["</tr>"]))); [reflexivity|].
  intros week s Hweek.
  rewrite (for_each_ext_in week
             (render_day str_of month_of day_of month f)
             (render_day str_of month_of day_of month g)); [reflexivity|].
  intros d s' Hd. apply render_day_agree. intros Hm.
  apply (H weeks week d eq_refl Hweek Hd Hm).
Qed.

(** A query that fails outside May, used to exercise the calendar. *)
Lemma calendar_uses_month_dates_only_witness :
  let f := get_kinmu_for_calendar (mkcontext (day 739000) 8 sample_flat) in
  let g := fun d => if sample_month_of d =? 5 then f d else Raise KeyError in
  g (day 739005) = Raise KeyError /\
  (forall weeks week d, sample_weeks 2024 5 = Ok weeks ->
                        In week weeks -> In d week ->
                        sample_month_of d = 5 -> f d = g d) /\
  create_calendar_html sample_str_of sample_month_of sample_day_of
    sample_weeks 2024 5 f
  = create_calendar_html sample_str_of sample_month_of sample_day_of
      sample_weeks 2024 5 g.
Proof.
  intros f g.
  assert (H : forall weeks week d, sample_weeks 2024 5 = Ok weeks ->
                In week weeks -> In d week ->
                sample_month_of d = 5 -> f d = g d).
  { intros weeks week d _ _ _ Hm. unfold g. rewrite Hm. reflexivity. }
  split; [reflexivity|]. split; [exact H|].
  exact (calendar_uses_month_dates_only sample_str_of sample_month_of
           sample_day_of sample_weeks 2024 5 f g H).
Defined.

(** The three outcomes of the anchor computation. *)
Lemma script_context_cases {cell : Type} (df : dataframe cell) (rd : date)
  (rw : Z) (rg : string) :
  (~ In rw (df_index df) /\
   script_context df rd rw rg = Raise StopException) \/
  (In rw (df_index df) /\ ~ In rg group_list /\
   script_context df rd rw rg = Raise ValueError) \/
  (In rw (df_index df) /\ In rg group_list /\
   exists ctx, script_context df rd rw rg = Ok ctx).
Proof.
  destruct (flatten_cells df) as [flat [Hflat _]].
  unfold script_context. rewrite Hflat. cbn [bind].
  destruct (in_dec Z.eq_dec rw (df_index df)) as [Hw|Hw].
  - right.
    destruct (index_found Z.eqb (sorted (df_index df)) rw) as [i Hi].
    { exists rw. split; [apply sorted_In; exact Hw | apply Z.eqb_refl]. }
    rewrite Hi. cbn [bind].
    destruct (in_dec string_dec rg group_list) as [Hg|Hg].
    + right. split; [exact Hw|]. split; [exact Hg|].
      destruct (index_string_found group_list rg Hg) as [j [Hj _]].
      rewrite Hj. cbn [bind]. eexists. reflexivity.
    + left. split; [exact Hw|]. split; [exact Hg|].
      rewrite (index_string_absent group_list rg Hg). reflexivity.
  - left. split; [exact Hw|].
    rewrite index_absent; [reflexivity|].
    intros y Hy. apply Z.eqb_neq. intros E. subst y.
    apply Hw. apply sorted_In. exact Hy.
Qed.

(** X12. What the script shows for a loaded table: nothing but the stop
    of the week look-up when the reference week is not a week number of the
    table; the [ValueError] message of the handler when the week is in the
    table and the group is not one of the seven; and, with a week of the
    table and a group of the seven, the calendar when [monthdatescalendar]
    returns the weeks of the month, and otherwise the message of the
    exception [monthdatescalendar] raised. The per-date query adds no
    failure. *)
Theorem script_page_cases {cell : Type} (str_of : loc_value cell -> string)
  (month_of day_of : date -> Z)
  (monthdatescalendar : Z -> Z -> res (list (list date)))
  (df : dataframe cell) (rd : date) (rw : Z) (rg : string)
  (target_year target_month : Z) :
  let shown :=
    script_page str_of month_of day_of monthdatescalendar (Some df)
      rd rw rg target_year target_month in
  (~ In rw (df_index df) -> shown = Stopped) /\
  (In rw (df_index df) -> ~ In rg group_list ->
   shown = ErrorMessage ValueError) /\
  (In rw (df_index df) -> In rg group_list ->
   match monthdatescalendar target_year target_month with
   | Ok _ => exists html, shown = Calendar html
   | Raise StopException => shown = Stopped
   | Raise e => shown = ErrorMessage e
   end).
Proof.
  intros shown. subst shown. unfold script_page.
  destruct (script_context_cases df rd rw rg)
    as [[Hw H]|[[Hw [Hg H]]|[Hw [Hg [ctx H]]]]]; rewrite H; cbn [bind].
  - split; [reflexivity|]. split; intros; contradiction.
  - split; [intros; contradiction|]. split; [reflexivity|].
    intros; contradiction.
  - split; [intros; contradiction|]. split; [intros; contradiction|].
    intros _ _.
    destruct (script_context_cells _ _ _ _ _ H) as [_ [_ [_ [Hne _]]]].
    destruct (monthdatescalendar target_year target_month) as [weeks|e]
      eqn:Eweeks.
    + destruct (create_calendar_html str_of month_of day_of
                  monthdatescalendar target_year target_month
                  (get_kinmu_for_calendar ctx)) as [html|e] eqn:E.
      * exists html. reflexivity.
      * apply create_calendar_html_raise in E.
        destruct E as [E|[weeks' [week [d [_ [_ [_ [_ Hf]]]]]]]].
        -- rewrite Eweeks in E. discriminate.
        -- unfold get_kinmu_for_calendar in Hf.
           destruct (get_daily_kinmu_nonempty d (ref_date ctx)
                       (ref_shift_index ctx) (flat_shift_list ctx) Hne)
             as [_ [k [g [_ [_ Hq]]]]].
           rewrite Hq in Hf. discriminate.
    + rewrite (create_calendar_html_calendar_raise str_of month_of day_of
                 monthdatescalendar target_year target_month
                 (get_kinmu_for_calendar ctx) e Eweeks).
      destruct e; reflexivity.
Qed.

Lemma script_page_cases_witness :
  (~ In 99 (df_index sample_df) /\
   script_page sample_str_of sample_month_of sample_day_of sample_weeks
     (Some sample_df) (day 739000) 99 "ロ" 2024 5 = Stopped) /\
  (In 2 (df_index sample_df) /\ ~ In "A" group_list /\
   script_page sample_str_of sample_month_of sample_day_of sample_weeks
     (Some sample_df) (day 739000) 2 "A" 2024 5 = ErrorMessage ValueError) /\
  (In 2 (df_index sample_df) /\ In "ロ" group_list /\
   (exists html,
      script_page sample_str_of sample_month_of sample_day_of sample_weeks
        (Some sample_df) (day 739000) 2 "ロ" 2024 5 = Calendar html) /\
   script_page sample_str_of sample_month_of sample_day_of sample_weeks
     (Some sample_df) (day 739000) 2 "ロ" 2024 13 = ErrorMessage ValueError).
Proof.
  assert (H99 : ~ In 99 (df_index sample_df)).
  { simpl. intuition discriminate. }
  assert (H2 : In 2 (df_index sample_df)) by (simpl; auto).
  assert (HA : ~ In "A" group_list).
  { simpl. intuition discriminate. }
  assert (Hro : In "ロ" group_list) by (simpl; auto).
  split; [|split].
  - split; [exact H99|].
    exact (proj1 (script_page_cases sample_str_of sample_month_of
                    sample_day_of sample_weeks sample_df (day 739000) 99 "ロ"
                    2024 5) H99).
  - split; [exact H2|]. split; [exact HA|].
    exact (proj1 (proj2 (script_page_cases sample_str_of sample_month_of
                           sample_day_of sample_weeks sample_df (day 739000)
                           2 "A" 2024 5)) H2 HA).
  - split; [exact H2|]. split; [exact Hro|]. split.
    + exact (proj2 (proj2 (script_page_cases sample_str_of sample_month_of
                             sample_day_of sample_weeks sample_df
                             (day 739000) 2 "ロ" 2024 5)) H2 Hro).
    + exact (proj2 (proj2 (script_page_cases sample_str_of sample_month_of
                             sample_day_of sample_weeks sample_df
                             (day 739000) 2 "ロ" 2024 13)) H2 Hro).
Defined.

(** X13. Flattening raises for no frame, with or without repeated week
    numbers: every label it looks up comes from the index and every group
    is a column, so no [KeyError] can occur, and the list has seven entries
    for each line of the frame. *)
Theorem flatten_never_raises {cell : Type} (df : dataframe cell) :
  exists flat,
    flatten_shift_data (Some df) = Ok flat /\
    len flat = len df * len group_list.
Proof.
  destruct (flatten_cells df) as [flat [Hflat [Hlen _]]].
  exists flat. split; [exact Hflat|].
  rewrite len_group_list. unfold len. lia.
Qed.
